(** * NetworkClipboard: a shallow embedding of [main.py]

    The store ([NetworkClipboard]) keeps a Python dict from identifiers to
    entries, rewrites a JSON file after every creation and is served by two
    Flask views.  Python values are embedded as the inductive type [pyval];
    a dict is an insertion-ordered association list with unique keys, the
    order being what [json.dump] writes and [json.load] reads back.
    Exceptions are an explicit [result]; the storage file, the two uuid
    draws and the value of [request.json] are explicit inputs. *)

From Stdlib Require Import ZArith NArith List String Ascii Bool Lia.
From Stdlib Require Import Decimal DecimalString DecimalPos DecimalFacts.
Import ListNotations.
Local Open Scope string_scope.
Local Set Warnings "-register-all".

(** ** Python values *)

(** The values [json.load] can produce and [json.dump] can write.  Floats
    are left out of the model. *)
Inductive pyval : Type :=
| PNone
| PBool (b : bool)
| PInt (z : Z)
| PStr (s : string)
| PList (l : list pyval)
| PDict (d : list (string * pyval)).

Definition dict := list (string * pyval).

(** The exception classes that occur in [main.py] and in what it calls. *)
Inductive exn : Type :=
| JSONDecodeError
| OSError            (* [IOError] is an alias of [OSError] *)
| UnicodeDecodeError
| TypeError
| AttributeError
| KeyError.

Inductive result (A : Type) : Type :=
| Ok (a : A)
| Raise (e : exn).
Arguments Ok {A} a.
Arguments Raise {A} e.

Definition bind {A B} (r : result A) (f : A -> result B) : result B :=
  match r with
  | Ok a => f a
  | Raise e => Raise e
  end.

Notation "x <- r ;; k" := (bind r (fun x => k))
  (at level 61, r at next level, right associativity).

(** ** Dict operations *)

(** [d.get(k)] *)
Fixpoint dict_get (k : string) (d : dict) : option pyval :=
  match d with
  | [] => None
  | (k', v) :: d' => if String.eqb k k' then Some v else dict_get k d'
  end.

(** [d[k] = v]: an existing key keeps its position and gets the new value,
    a new key goes last. *)
Fixpoint dict_set (k : string) (v : pyval) (d : dict) : dict :=
  match d with
  | [] => [(k, v)]
  | (k', v') :: d' =>
      if String.eqb k k' then (k', v) :: d' else (k', v') :: dict_set k v d'
  end.

(** [k in d] *)
Definition dict_mem (k : string) (d : dict) : bool :=
  match dict_get k d with Some _ => true | None => false end.

Definition keys (d : dict) : list string := map fst d.

(** ** Truth value and membership, as [if not data or 'content' not in data]
    evaluates them *)

(** [bool(v)] *)
Definition truthy (v : pyval) : bool :=
  match v with
  | PNone => false
  | PBool b => b
  | PInt z => negb (Z.eqb z 0)
  | PStr s => negb (String.eqb s "")
  | PList l => match l with [] => false | _ => true end
  | PDict d => match d with [] => false | _ => true end
  end.

(** [s == v] for a str [s] *)
Definition eq_str (s : string) (v : pyval) : bool :=
  match v with
  | PStr s' => String.eqb s s'
  | _ => false
  end.

(** [needle in hay] on str: substring search *)
Fixpoint is_substring (needle hay : string) : bool :=
  if String.prefix needle hay then true
  else match hay with
       | EmptyString => false
       | String _ hay' => is_substring needle hay'
       end.

(** [s in v]: key membership on a dict, element membership on a list,
    substring on a str, [TypeError] on what is not a container. *)
Definition py_in (s : string) (v : pyval) : result bool :=
  match v with
  | PDict d => Ok (dict_mem s d)
  | PList l => Ok (existsb (eq_str s) l)
  | PStr h => Ok (is_substring s h)
  | PNone | PBool _ | PInt _ => Raise TypeError
  end.

(** [v[s]] for a str [s]: a dict is looked up, a list and a str take
    integer indices only, the rest is not subscriptable. *)
Definition py_getitem (v : pyval) (s : string) : result pyval :=
  match v with
  | PDict d => match dict_get s d with
               | Some x => Ok x
               | None => Raise KeyError
               end
  | _ => Raise TypeError
  end.

(** [v[k] = x] for a str [k] *)
Definition py_setitem (v : pyval) (k : string) (x : pyval) : result pyval :=
  match v with
  | PDict d => Ok (PDict (dict_set k x d))
  | _ => Raise TypeError
  end.

(** [v.get(k)]: only a dict has the method. *)
Definition py_get (v : pyval) (k : string) : result (option pyval) :=
  match v with
  | PDict d => Ok (dict_get k d)
  | _ => Raise AttributeError
  end.

(** ** uuid *)

Definition hex_digit (n : N) : ascii :=
  match n with
  | 0 => "0" | 1 => "1" | 2 => "2" | 3 => "3" | 4 => "4" | 5 => "5"
  | 6 => "6" | 7 => "7" | 8 => "8" | 9 => "9" | 10 => "a" | 11 => "b"
  | 12 => "c" | 13 => "d" | 14 => "e" | _ => "f"
  end%N%char.

(** The [i]-th hex digit of [n], counted from the least significant. *)
Definition nibble (n : N) (i : nat) : ascii :=
  hex_digit (N.land (N.shiftr n (4 * N.of_nat i)) 15).

(** [cnt] hex digits of [n], the most significant being digit [hi - 1]:
    the digits [hi - 1], ..., [hi - cnt]. *)
Fixpoint hex_field (n : N) (hi cnt : nat) : string :=
  match cnt with
  | O => ""
  | S c => String (nibble n (hi - 1)) (hex_field n (hi - 1) c)
  end.

(** [str(u)] for a [uuid.UUID] of integer value [n]: ['%032x' % n] cut
    into the groups 8-4-4-4-12. *)
Definition uuid_str (n : N) : string :=
  hex_field n 32 8 ++ "-" ++ hex_field n 24 4 ++ "-" ++ hex_field n 20 4
  ++ "-" ++ hex_field n 16 4 ++ "-" ++ hex_field n 12 12.

(** [s[:k]] *)
Definition take (k : nat) (s : string) : string := String.substring 0 k s.

(** ** The JSON text format

    [json_dumps] is [json.dumps(v, indent=2)] (what [json.dump(v, f,
    indent=2)] writes) and [json_loads] is [json.loads].  A character of a
    [string] stands for the code point of the same number, so text is over
    the code points 0 to 255; an escape [\uXXXX] above that range is outside
    the model and is not read.  Numbers with a fraction or an exponent are
    floats and are not read either. *)

Definition nl : ascii := "010"%char.
Definition cr : ascii := "013"%char.
Definition tab : ascii := "009"%char.
Definition quote : ascii := Ascii false true false false false true false false.
Definition backslash : ascii := "\"%char.

Fixpoint spaces (n : nat) : string :=
  match n with
  | O => ""
  | S n' => String " " (spaces n')
  end.

(** The newline and indentation that precede an item at nesting [lvl]. *)
Definition nl_indent (lvl : nat) : string := String nl (spaces (2 * lvl)).

(** [ESCAPE_ASCII]: the quote and the backslash are escaped, a few control
    characters have a short escape, everything else outside space..~ is
    written as [\u00xx]. *)
Definition escape_char (c : ascii) : string :=
  let n := N_of_ascii c in
  if (n =? 34)%N then String backslash (String quote "")
  else if (n =? 92)%N then "\\"
  else if (n =? 10)%N then "\n"
  else if (n =? 13)%N then "\r"
  else if (n =? 9)%N then "\t"
  else if (n =? 8)%N then "\b"
  else if (n =? 12)%N then "\f"
  else if ((32 <=? n) && (n <=? 126))%N then String c ""
  else String backslash (String "u" (String "0" (String "0"
         (String (hex_digit (N.shiftr n 4))
            (String (hex_digit (N.land n 15)) ""))))).

Fixpoint escape (s : string) : string :=
  match s with
  | "" => ""
  | String c s' => escape_char c ++ escape s'
  end.

Definition dump_str (s : string) : string :=
  String quote (escape s ++ String quote "").

Definition dump_int (z : Z) : string :=
  match z with
  | Z0 => "0"
  | Zpos p => NilEmpty.string_of_uint (Pos.to_uint p)
  | Zneg p => String "-" (NilEmpty.string_of_uint (Pos.to_uint p))
  end.

(** The items of a non-empty container after its first one, up to the
    closing bracket: every item on a line of its own, two spaces deeper
    than the container, with a comma between items and a colon and a space
    after a key. *)
Section Tail.
Variable dump_item : pyval -> string.
Variable lvl : nat.

Fixpoint dump_items (l : list pyval) : string :=
  match l with
  | [] => nl_indent lvl ++ "]"
  | y :: l' => "," ++ nl_indent (S lvl) ++ dump_item y ++ dump_items l'
  end.

Fixpoint dump_members (d : list (string * pyval)) : string :=
  match d with
  | [] => nl_indent lvl ++ "}"
  | (k, y) :: d' =>
      "," ++ nl_indent (S lvl) ++ dump_str k ++ ": " ++ dump_item y
      ++ dump_members d'
  end.
End Tail.

(** [dump lvl v]: the text of [v] when it sits at nesting depth [lvl].  An
    empty container is written without a line break. *)
Fixpoint dump (lvl : nat) (v : pyval) : string :=
  match v with
  | PNone => "null"
  | PBool true => "true"
  | PBool false => "false"
  | PInt z => dump_int z
  | PStr s => dump_str s
  | PList [] => "[]"
  | PList (x :: l) =>
      "[" ++ nl_indent (S lvl) ++ dump (S lvl) x
      ++ dump_items (dump (S lvl)) lvl l
  | PDict [] => "{}"
  | PDict ((k, x) :: d) =>
      "{" ++ nl_indent (S lvl) ++ dump_str k ++ ": " ++ dump (S lvl) x
      ++ dump_members (dump (S lvl)) lvl d
  end.

Definition json_dumps (v : pyval) : string := dump 0 v.

(** *** Reading *)

Definition is_ws (c : ascii) : bool :=
  let n := N_of_ascii c in
  ((n =? 32) || (n =? 9) || (n =? 10) || (n =? 13))%N.

Fixpoint skip_ws (s : string) : string :=
  match s with
  | "" => ""
  | String c s' => if is_ws c then skip_ws s' else s
  end.

Definition digit_of_char (c : ascii) : option (uint -> uint) :=
  match c with
  | "0" => Some D0 | "1" => Some D1 | "2" => Some D2 | "3" => Some D3
  | "4" => Some D4 | "5" => Some D5 | "6" => Some D6 | "7" => Some D7
  | "8" => Some D8 | "9" => Some D9 | _ => None
  end%char.

(** The longest run of decimal digits at the head of [s], and what
    follows it. *)
Fixpoint read_digits (s : string) : uint * string :=
  match s with
  | "" => (Nil, "")
  | String c s' =>
      match digit_of_char c with
      | Some d => let (u, r) := read_digits s' in (d u, r)
      | None => (Nil, s)
      end
  end.

(** A fraction or an exponent follows: the number is a float. *)
Definition float_follows (s : string) : bool :=
  match s with
  | String c _ => Ascii.eqb c "."%char || Ascii.eqb c "e"%char || Ascii.eqb c "E"%char
  | "" => false
  end.

(** An integer is an optional minus sign, then either a single zero or a
    non-zero digit and more digits: after a leading zero the number is over,
    so a digit that follows it is extra data wherever the number stands. *)
Definition parse_nat (s : string) : option (Z * string) :=
  let (u, r) := read_digits s in
  if float_follows r then None
  else match u with
       | Nil => None
       | D0 Nil => Some (0%Z, r)
       | D0 _ => None
       | _ => Some (Z.of_N (Pos.of_uint u), r)
       end.

Definition parse_int (s : string) : option (Z * string) :=
  match s with
  | String "-" s' =>
      match parse_nat s' with
      | Some (z, r) => Some (Z.opp z, r)
      | None => None
      end
  | _ => parse_nat s
  end.

Definition hex_value (c : ascii) : option N :=
  let n := N_of_ascii c in
  if ((48 <=? n) && (n <=? 57))%N then Some (n - 48)%N
  else if ((97 <=? n) && (n <=? 102))%N then Some (n - 87)%N
  else if ((65 <=? n) && (n <=? 70))%N then Some (n - 55)%N
  else None.

Definition hex4 (a b c d : ascii) : option N :=
  match hex_value a, hex_value b, hex_value c, hex_value d with
  | Some x, Some y, Some z, Some w => Some (((x * 16 + y) * 16 + z) * 16 + w)%N
  | _, _, _, _ => None
  end.

(** The character a one-letter escape stands for. *)
Definition unescape (e : ascii) : option ascii :=
  let n := N_of_ascii e in
  if (n =? 34)%N then Some quote
  else if (n =? 92)%N then Some backslash
  else if (n =? 47)%N then Some "/"%char
  else if (n =? 98)%N then Some "008"%char
  else if (n =? 102)%N then Some "012"%char
  else if (n =? 110)%N then Some nl
  else if (n =? 114)%N then Some cr
  else if (n =? 116)%N then Some tab
  else None.

Definition cons_fst (c : ascii) (r : option (string * string))
  : option (string * string) :=
  match r with
  | Some (s, rest) => Some (String c s, rest)
  | None => None
  end.

(** [py_scanstring] in strict mode, from just after the opening quote: the
    decoded string and what follows the closing quote. *)
Fixpoint scan_string (s : string) : option (string * string) :=
  match s with
  | "" => None
  | String c s' =>
      if Ascii.eqb c quote then Some ("", s')
      else if Ascii.eqb c backslash then
        match s' with
        | "" => None
        | String e s'' =>
            if Ascii.eqb e "u" then
              match s'' with
              | String h1 (String h2 (String h3 (String h4 r))) =>
                  match hex4 h1 h2 h3 h4 with
                  | Some n =>
                      if (n <? 256)%N then cons_fst (ascii_of_N n) (scan_string r)
                      else None
                  | None => None
                  end
              | _ => None
              end
            else
              match unescape e with
              | Some ch => cons_fst ch (scan_string s'')
              | None => None
              end
        end
      else if (N_of_ascii c <? 32)%N then None
      else cons_fst c (scan_string s')
  end.

(** [s] without the prefix [p], when it has it. *)
Fixpoint strip (p s : string) : option string :=
  match p with
  | "" => Some s
  | String a p' =>
      match s with
      | "" => None
      | String b s' => if Ascii.eqb a b then strip p' s' else None
      end
  end.

(** [dict(pairs)]: the pairs are stored one after the other, a repeated
    key keeping its first place and its last value. *)
Definition dict_of_pairs (l : list (string * pyval)) : dict :=
  fold_left (fun d kv => dict_set (fst kv) (snd kv) d) l [].

(** [scan_once] with [JSONArray] and [JSONObject].  [parse_value] reads one
    value at the head of the text; [parse_items] reads the items of an array
    from its first item to the closing bracket, [parse_members] the members
    of an object from the opening quote of its first key to the closing
    brace.  The recursion is on [fuel]; [json_loads] gives more than a text
    can use. *)
Fixpoint parse_value (fuel : nat) (s : string) : option (pyval * string) :=
  match fuel with
  | O => None
  | S f =>
      match s with
      | "" => None
      | String c r =>
          if Ascii.eqb c quote then
            match scan_string r with
            | Some (str, r') => Some (PStr str, r')
            | None => None
            end
          else if Ascii.eqb c "{" then
            match skip_ws r with
            | String c1 r1 =>
                if Ascii.eqb c1 "}" then Some (PDict [], r1)
                else if Ascii.eqb c1 quote then
                  match parse_members f r1 with
                  | Some (l, r2) => Some (PDict (dict_of_pairs l), r2)
                  | None => None
                  end
                else None
            | "" => None
            end
          else if Ascii.eqb c "[" then
            match skip_ws r with
            | String c1 r1 =>
                if Ascii.eqb c1 "]" then Some (PList [], r1)
                else
                  match parse_items f (String c1 r1) with
                  | Some (l, r2) => Some (PList l, r2)
                  | None => None
                  end
            | "" => None
            end
          else if Ascii.eqb c "n" then
            match strip "ull" r with
            | Some r' => Some (PNone, r')
            | None => None
            end
          else if Ascii.eqb c "t" then
            match strip "rue" r with
            | Some r' => Some (PBool true, r')
            | None => None
            end
          else if Ascii.eqb c "f" then
            match strip "alse" r with
            | Some r' => Some (PBool false, r')
            | None => None
            end
          else
            match parse_int s with
            | Some (z, r') => Some (PInt z, r')
            | None => None
            end
      end
  end

with parse_items (fuel : nat) (s : string) : option (list pyval * string) :=
  match fuel with
  | O => None
  | S f =>
      match parse_value f s with
      | Some (v, r) =>
          match skip_ws r with
          | String c r1 =>
              if Ascii.eqb c "]" then Some ([v], r1)
              else if Ascii.eqb c "," then
                match parse_items f (skip_ws r1) with
                | Some (l, r2) => Some (v :: l, r2)
                | None => None
                end
              else None
          | "" => None
          end
      | None => None
      end
  end

with parse_members (fuel : nat) (s : string)
  : option (list (string * pyval) * string) :=
  match fuel with
  | O => None
  | S f =>
      match scan_string s with
      | Some (k, r) =>
          match skip_ws r with
          | String c r1 =>
              if Ascii.eqb c ":" then
                match parse_value f (skip_ws r1) with
                | Some (v, r2) =>
                    match skip_ws r2 with
                    | String c2 r3 =>
                        if Ascii.eqb c2 "}" then Some ([(k, v)], r3)
                        else if Ascii.eqb c2 "," then
                          match skip_ws r3 with
                          | String c3 r4 =>
                              if Ascii.eqb c3 quote then
                                match parse_members f r4 with
                                | Some (l, r5) => Some ((k, v) :: l, r5)
                                | None => None
                                end
                              else None
                          | "" => None
                          end
                        else None
                    | "" => None
                    end
                | None => None
                end
              else None
          | "" => None
          end
      | None => None
      end
  end.

(** [json.loads]: leading blanks, one value, trailing blanks and nothing
    else; [None] stands for [JSONDecodeError]. *)
Definition json_loads (s : string) : option pyval :=
  match parse_value (S (String.length s)) (skip_ws s) with
  | Some (v, r) => match skip_ws r with "" => Some v | _ => None end
  | None => None
  end.

(** *** Dicts as Python has them

    A Python dict holds a key once.  [dict_ok v] says so for every dict
    inside [v]; it holds of every value Python can build. *)
Section Nested.
Variable P : pyval -> Prop.
Variable m : pyval -> nat.

Fixpoint all_items (l : list pyval) : Prop :=
  match l with
  | [] => True
  | x :: l' => P x /\ all_items l'
  end.

Fixpoint all_values (d : list (string * pyval)) : Prop :=
  match d with
  | [] => True
  | (_, x) :: d' => P x /\ all_values d'
  end.

Fixpoint sum_items (l : list pyval) : nat :=
  match l with
  | [] => 0
  | x :: l' => S (m x + sum_items l')
  end.

Fixpoint sum_values (d : list (string * pyval)) : nat :=
  match d with
  | [] => 0
  | (_, x) :: d' => S (m x + sum_values d')
  end.
End Nested.

Fixpoint dict_ok (v : pyval) : Prop :=
  match v with
  | PList l => all_items dict_ok l
  | PDict d => NoDup (keys d) /\ all_values dict_ok d
  | _ => True
  end.

(** The number of values in [v], containers and items counted: the fuel
    reading its text takes. *)
Fixpoint size (v : pyval) : nat :=
  match v with
  | PList l => S (sum_items size l)
  | PDict d => S (sum_values size d)
  | _ => 1
  end.

(** A number may end where [s] begins: no digit, fraction or exponent
    follows. *)
Definition ends_number (s : string) : bool :=
  match s with
  | "" => true
  | String c _ =>
      match digit_of_char c with
      | Some _ => false
      | None => negb (float_follows s)
      end
  end.

(** ** The storage file *)

(** What reading a file in text mode gives: its text, or bytes that the
    locale's encoding cannot decode. *)
Inductive content : Type :=
| Text (s : string)
| Undecodable.

Record file : Type := mkFile {
  body : content;
  readable : bool   (* [open(path, 'r')] succeeds *)
}.

(** The file system as [main.py] sees it: what is at a path, and whether
    [open(path, 'w')] succeeds there. *)
Record fs : Type := mkFs {
  at_path : string -> option file;
  can_write : string -> bool
}.

(** [open(path, 'w')] followed by writing [txt]: the file is created or
    truncated and holds [txt]. *)
Definition write_text (d : fs) (path txt : string) : fs :=
  let r := match at_path d path with Some f => readable f | None => true end in
  mkFs (fun p => if String.eqb p path then Some (mkFile (Text txt) r)
                 else at_path d p)
       (can_write d).

(** [json.load(open(path, 'r'))] *)
Definition json_load (f : file) : result pyval :=
  if readable f then
    match body f with
    | Undecodable => Raise UnicodeDecodeError
    | Text s =>
        match json_loads s with
        | Some v => Ok v
        | None => Raise JSONDecodeError
        end
    end
  else Raise OSError.

(** ** The store *)

Record NetworkClipboard : Type := mkClipboard {
  storage_file : string;
  data : pyval
}.

(** The process: the one [clipboard] object of the module and the disk. *)
Record world : Type := mkWorld {
  clipboard : NetworkClipboard;
  disk : fs
}.

(** A method of the store runs on the world and returns a value or raises;
    the world it leaves is kept in both cases. *)
Definition M (A : Type) : Type := world -> result A * world.

Definition ret {A} (a : A) : M A := fun w => (Ok a, w).

Definition lift {A} (r : result A) : M A := fun w => (r, w).

Definition bindM {A B} (m : M A) (f : A -> M B) : M B :=
  fun w =>
    match m w with
    | (Ok a, w') => f a w'
    | (Raise e, w') => (Raise e, w')
    end.

Notation "x <~ m ;; k" := (bindM m (fun x => k))
  (at level 61, m at next level, right associativity).

Definition get_data : M pyval := fun w => (Ok (data (clipboard w)), w).

Definition set_data (v : pyval) : M unit :=
  fun w =>
    (Ok tt, mkWorld (mkClipboard (storage_file (clipboard w)) v) (disk w)).

(** [load_data]: no file gives the empty dict; a [JSONDecodeError] or an
    [IOError] while reading gives the empty dict; any other exception is not
    caught. *)
Definition load_data (path : string) (d : fs) : result pyval :=
  match at_path d path with
  | None => Ok (PDict [])
  | Some f =>
      match json_load f with
      | Ok v => Ok v
      | Raise JSONDecodeError => Ok (PDict [])
      | Raise OSError => Ok (PDict [])
      | Raise e => Raise e
      end
  end.

(** [NetworkClipboard(storage_file)] *)
Definition init (path : string) (d : fs) : result world :=
  v <- load_data path d ;; Ok (mkWorld (mkClipboard path v) d).

(** [save_data] *)
Definition save_data : M unit :=
  fun w =>
    let path := storage_file (clipboard w) in
    if can_write (disk w) path then
      (Ok tt, mkWorld (clipboard w)
                (write_text (disk w) path (json_dumps (data (clipboard w)))))
    else (Raise OSError, w).

(** The entry [create_entry] stores: the content and [str(uuid.uuid1())]. *)
Definition new_entry (content : pyval) (u1 : N) : pyval :=
  PDict [("content", content); ("timestamp", PStr (uuid_str u1))].

(** [create_entry(content)], [u4] and [u1] being the integer values of the
    calls [uuid.uuid4()] and [uuid.uuid1()]. *)
Definition create_entry (content : pyval) (u4 u1 : N) : M string :=
  let entry_id := take 8 (uuid_str u4) in
  d <~ get_data ;;
  d' <~ lift (py_setitem d entry_id (new_entry content u1)) ;;
  _ <~ set_data d' ;;
  _ <~ save_data ;;
  ret entry_id.

(** [get_entry(entry_id)]: [self.data.get(entry_id)], which is [None] for a
    key the dict does not have. *)
Definition get_entry (entry_id : string) : M pyval :=
  d <~ get_data ;;
  r <~ lift (py_get d entry_id) ;;
  ret (match r with Some v => v | None => PNone end).

(** ** The views *)

Inductive payload : Type :=
| Json (v : pyval)      (* [jsonify(v)] *)
| ErrorPage.            (* the page Flask makes for an unhandled exception *)

Record response : Type := mkResponse {
  status : nat;
  payload_of : payload
}.

(** [create_clipboard_entry], [req_json] being the value of
    [request.json]. *)
Definition create_clipboard_entry (req_json : pyval) (u4 u1 : N)
  : M response :=
  missing <~ (if negb (truthy req_json) then ret true
              else c <~ lift (py_in "content" req_json) ;; ret (negb c)) ;;
  if missing : bool then
    ret (mkResponse 400 (Json (PDict [("error", PStr "Content is required")])))
  else
    c <~ lift (py_getitem req_json "content") ;;
    entry_id <~ create_entry c u4 u1 ;;
    ret (mkResponse 200 (Json (PDict [("id", PStr entry_id)]))).

(** [get_clipboard_entry(entry_id)] *)
Definition get_clipboard_entry (entry_id : string) : M response :=
  entry <~ get_entry entry_id ;;
  if truthy entry then ret (mkResponse 200 (Json entry))
  else ret (mkResponse 404 (Json (PDict [("error", PStr "Entry not found")]))).

(** What Flask answers for a view: the view's response, or status 500 when
    the view raises. *)
Definition serve (view : M response) (w : world) : response * world :=
  match view w with
  | (Ok r, w') => (r, w')
  | (Raise _, w') => (mkResponse 500 ErrorPage, w')
  end.

(** ** Runs *)

Inductive op : Type :=
| Create (content : pyval) (u4 u1 : N)
| Get (entry_id : string).

Definition exec (w : world) (o : op) : world :=
  match o with
  | Create c u4 u1 => snd (create_entry c u4 u1 w)
  | Get i => snd (get_entry i w)
  end.

Definition run (ops : list op) (w : world) : world := fold_left exec ops w.

(** The identifiers the creations of a run return or would return. *)
Fixpoint drawn (ops : list op) : list string :=
  match ops with
  | [] => []
  | Create _ u4 _ :: ops' => take 8 (uuid_str u4) :: drawn ops'
  | Get _ :: ops' => drawn ops'
  end.

(** The storage of the store is writable. *)
Definition writable (w : world) : Prop :=
  can_write (disk w) (storage_file (clipboard w)) = true.

(** The shape [create_entry] gives an entry. *)
Definition is_entry (v : pyval) : Prop :=
  exists c ts, v = PDict [("content", c); ("timestamp", PStr ts)].

(** Every value of the store is an entry. *)
Definition entries_ok (d : dict) : Prop :=
  forall k v, dict_get k d = Some v -> is_entry v.

(** The identifiers the creations of a run return, in the order of the
    calls; a creation that raises returns none. *)
Fixpoint returned (ops : list op) (w : world) : list string :=
  match ops with
  | [] => []
  | o :: ops' =>
      match o with
      | Create c u4 u1 =>
          match fst (create_entry c u4 u1 w) with
          | Ok i => [i]
          | Raise _ => []
          end
      | Get _ => []
      end ++ returned ops' (exec w o)
  end.

(** A value may begin where [s] begins: at a character that is neither a
    blank nor a closing bracket. *)
Definition value_head (s : string) : bool :=
  match s with
  | "" => false
  | String c _ => negb (is_ws c) && negb (Ascii.eqb c "]")
  end.

(** Reading back what [dump] wrote, for every fuel up to [n]. *)
Definition reads (n : nat) : Prop :=
  forall f v lvl rest,
    f <= n -> size v <= f -> dict_ok v -> ends_number rest = true ->
    parse_value f (dump lvl v ++ rest) = Some (v, rest).

(** The text of a value of size at most [n] is at least as long as the
    value is big. *)
Definition fits (n : nat) : Prop :=
  forall v lvl, size v <= n -> size v <= String.length (dump lvl v).

(** The storage file can be read back once written: it is absent or
    readable. *)
Definition loadable (w : world) : Prop :=
  match at_path (disk w) (storage_file (clipboard w)) with
  | Some f => readable f = true
  | None => True
  end.

(** *** Worlds used in the examples *)

Definition no_files : fs := mkFs (fun _ => None) (fun _ => true).

Definition fresh : world :=
  mkWorld (mkClipboard "clipboard_data.json" (PDict [])) no_files.

(** Two draws of [uuid4] that agree on their first 32 bits only. *)
Definition draw_a : N := 0xdeadbeef00004000800000000000000a.
Definition draw_b : N := 0xdeadbeef11114111811111111111111b.

Definition after_first : world :=
  snd (create_entry (PStr "first") draw_a 1 fresh).

Definition after_second : world :=
  snd (create_entry (PStr "second") draw_b 2 after_first).

(** A storage file whose bytes are not text in the locale's encoding (the
    single byte 0xFF under UTF-8, say), and one that holds a JSON array. *)
Definition corrupt_disk : fs :=
  mkFs (fun p => if String.eqb p "clipboard_data.json"
                 then Some (mkFile Undecodable true) else None)
       (fun _ => true).

Definition array_disk : fs :=
  mkFs (fun p => if String.eqb p "clipboard_data.json"
                 then Some (mkFile (Text "[]") true) else None)
       (fun _ => true).

(** *** Further notions for the store and its runs *)

(** [isinstance(v, dict)] *)
Definition is_dict (v : pyval) : bool :=
  match v with
  | PDict _ => true
  | _ => false
  end.

(** Every content a run creates is a Python value. *)
Fixpoint contents_ok (ops : list op) : Prop :=
  match ops with
  | [] => True
  | Create c _ _ :: ops' => dict_ok c /\ contents_ok ops'
  | Get _ :: ops' => contents_ok ops'
  end.

(** A disk where nothing can be opened for writing. *)
Definition read_only_disk : fs := mkFs (fun _ => None) (fun _ => false).

Definition read_only : world :=
  mkWorld (mkClipboard "clipboard_data.json" (PDict [])) read_only_disk.

(** A disk whose storage file holds the text [txt]. *)
Definition disk_with (txt : string) : fs :=
  mkFs (fun p => if String.eqb p "clipboard_data.json"
                 then Some (mkFile (Text txt) true) else None)
       (fun _ => true).

(** A store as a hand-edited storage file can give it: the identifier
    [abc] is a key, its value is an empty object. *)
Definition hand_edited : world :=
  mkWorld (mkClipboard "clipboard_data.json" (PDict [("abc", PDict [])]))
    (disk_with (json_dumps (PDict [("abc", PDict [])]))).

(** The characters of an identifier: decimal digits and the letters a to
    f. *)
Definition is_hex_lower (c : ascii) : bool :=
  let n := N_of_ascii c in
  (((48 <=? n) && (n <=? 57)) || ((97 <=? n) && (n <=? 102)))%N.

Fixpoint all_chars (p : ascii -> bool) (s : string) : bool :=
  match s with
  | "" => true
  | String c s' => p c && all_chars p s'
  end.

(** ** The page's script

    The two functions of the script in [HTML_TEMPLATE], run against the
    views.  A function of the script gives the list of what it does to the
    page, in order; [None] stands for a run this model does not cover. *)

Inductive effect : Type :=
| Alert (msg : string)                   (* [alert(msg)] *)
| ConsoleError                           (* [console.error('Error:', error)] *)
| SetInnerHTML (element html : string).  (* [getElementById(element).innerHTML = html] *)

(** A value of the script: [undefined], or a value [response.json()]
    gives. *)
Inductive jsval : Type :=
| JUndefined
| JValue (v : pyval).

(** [data.name], for a name no prototype defines, as [id] and [content]:
    the member of an object, [undefined] on anything else, a [TypeError]
    ([None]) on [null]. *)
Definition js_prop (data : pyval) (name : string) : option jsval :=
  match data with
  | PNone => None
  | PDict d => Some (match dict_get name d with
                     | Some v => JValue v
                     | None => JUndefined
                     end)
  | _ => Some JUndefined
  end.

(** The truth value the script's [if] gives: objects and arrays are true,
    empty ones too. *)
Definition js_truthy (x : jsval) : bool :=
  match x with
  | JUndefined => false
  | JValue PNone => false
  | JValue (PBool b) => b
  | JValue (PInt z) => negb (Z.eqb z 0)
  | JValue (PStr s) => negb (String.eqb s "")
  | JValue (PList _) => true
  | JValue (PDict _) => true
  end.

(** The text a template literal gives a value.  Numbers beyond 2^53, which
    the script does not hold exactly, and arrays are not covered. *)
Definition js_string (x : jsval) : option string :=
  match x with
  | JUndefined => Some "undefined"
  | JValue PNone => Some "null"
  | JValue (PBool true) => Some "true"
  | JValue (PBool false) => Some "false"
  | JValue (PInt z) =>
      if (Z.abs z <=? 2 ^ 53)%Z then Some (dump_int z) else None
  | JValue (PStr s) => Some s
  | JValue (PList _) => None
  | JValue (PDict _) => Some "[object Object]"
  end.

Definition is_alnum (c : ascii) : bool :=
  let n := N_of_ascii c in
  (((48 <=? n) && (n <=? 57)) || ((65 <=? n) && (n <=? 90))
   || ((97 <=? n) && (n <=? 122)))%N.

(** The text can stand as it is for the last segment of the URL
    [/get/<entry_id>]: it is not empty and made of letters and digits. *)
Definition plain_segment (s : string) : bool :=
  negb (String.eqb s "") && all_chars is_alnum s.

(** [createEntry()], [content] being the value of the textarea. *)
Definition createEntry (content : string) (u4 u1 : N) (w : world)
  : option (list effect) * world :=
  if String.eqb content "" then
    (Some [Alert "Please enter some content"], w)
  else
    let rw :=
      serve (create_clipboard_entry (PDict [("content", PStr content)]) u4 u1) w
    in
    (match payload_of (fst rw) with
     | Json data =>
         match js_prop data "id" with
         | Some x =>
             match js_string x with
             | Some t =>
                 Some [SetInnerHTML "create-result"
                         ("Entry created! ID: <strong>" ++ t ++ "</strong>")]
             | None => None
             end
         | None => Some [ConsoleError; Alert "Failed to create entry"]
         end
     | ErrorPage => Some [ConsoleError; Alert "Failed to create entry"]
     end, snd rw).

(** [retrieveEntry()], [entryId] being the value of the input field. *)
Definition retrieveEntry (entryId : string) (w : world)
  : option (list effect) * world :=
  if String.eqb entryId "" then
    (Some [Alert "Please enter an Entry ID"], w)
  else if negb (plain_segment entryId) then (None, w)
  else
    let rw := serve (get_clipboard_entry entryId) w in
    (match payload_of (fst rw) with
     | Json data =>
         match js_prop data "content" with
         | Some x =>
             if js_truthy x then
               match js_string x with
               | Some t =>
                   Some [SetInnerHTML "result"
                           ("<strong>Retrieved Content:</strong><br>" ++ t)]
               | None => None
               end
             else Some [SetInnerHTML "result" "Entry not found or invalid ID"]
         | None => Some [ConsoleError; Alert "Failed to retrieve entry"]
         end
     | ErrorPage => Some [ConsoleError; Alert "Failed to retrieve entry"]
     end, snd rw).

(** A store with an entry whose content is the empty string, as
    [POST /create] makes it. *)
Definition empty_noted : world :=
  snd (serve (create_clipboard_entry (PDict [("content", PStr "")]) draw_a 1)
         fresh).

(** The entry the last creation of a run that draws [i] stores, if any
    creation draws it. *)
Fixpoint last_entry (i : string) (ops : list op) : option pyval :=
  match ops with
  | [] => None
  | o :: ops' =>
      match last_entry i ops' with
      | Some e => Some e
      | None =>
          match o with
          | Create c u4 u1 =>
              if String.eqb i (take 8 (uuid_str u4))
              then Some (new_entry c u1) else None
          | Get _ => None
          end
      end
  end.

(** The run makes no creation. *)
Fixpoint lookups_only (ops : list op) : bool :=
  match ops with
  | [] => true
  | Create _ _ _ :: _ => false
  | Get _ :: ops' => lookups_only ops'
  end.

(** * Properties *)

(** ** Dicts *)

Lemma dict_get_set_same (k : string) (v : pyval) (d : dict) :
  dict_get k (dict_set k v d) = Some v.
Proof.
  induction d as [|[k' v'] d IH]; simpl.
  - now rewrite String.eqb_refl.
  - destruct (String.eqb k k') eqn:E; simpl; rewrite E; auto.
Qed.

Lemma dict_get_set_other (k k' : string) (v : pyval) (d : dict) :
  k <> k' -> dict_get k (dict_set k' v d) = dict_get k d.
Proof.
  intros Hk.
  induction d as [|[k0 v0] d IH]; simpl.
  - apply String.eqb_neq in Hk. now rewrite Hk.
  - destruct (String.eqb k' k0) eqn:E; simpl.
    + apply String.eqb_eq in E. subst k0.
      apply String.eqb_neq in Hk. now rewrite Hk.
    + now rewrite IH.
Qed.

Lemma dict_get_none_keys (k : string) (d : dict) :
  dict_get k d = None <-> ~ In k (keys d).
Proof.
  induction d as [|[k' v'] d IH]; simpl.
  - tauto.
  - destruct (String.eqb k k') eqn:E.
    + apply String.eqb_eq in E. subst. split; [discriminate | tauto].
    + apply String.eqb_neq in E. rewrite IH. split.
      * intros H [H1 | H1]; [congruence | tauto].
      * tauto.
Qed.

Lemma entries_ok_set (k : string) (c : pyval) (u1 : N) (d : dict) :
  entries_ok d -> entries_ok (dict_set k (new_entry c u1) d).
Proof.
  intros H k0 v0.
  destruct (String.eqb k0 k) eqn:E.
  - apply String.eqb_eq in E. subst k0. rewrite dict_get_set_same.
    intros [= <-]. now exists c, (uuid_str u1).
  - apply String.eqb_neq in E. rewrite dict_get_set_other by assumption.
    apply H.
Qed.

(** ** The store's methods, step by step *)

Lemma create_entry_writable (w : world) (d : dict) (c : pyval) (u4 u1 : N) :
  data (clipboard w) = PDict d ->
  writable w ->
  let i := take 8 (uuid_str u4) in
  let d' := dict_set i (new_entry c u1) d in
  create_entry c u4 u1 w =
    (Ok i,
     mkWorld (mkClipboard (storage_file (clipboard w)) (PDict d'))
       (write_text (disk w) (storage_file (clipboard w))
          (json_dumps (PDict d')))).
Proof.
  intros Hd Hw. unfold writable in Hw.
  unfold create_entry, bindM, get_data, lift, set_data, save_data, ret.
  rewrite Hd. simpl. now rewrite Hw.
Qed.

Lemma get_entry_dict (w : world) (d : dict) (i : string) :
  data (clipboard w) = PDict d ->
  get_entry i w =
    (Ok (match dict_get i d with Some v => v | None => PNone end), w).
Proof.
  intros Hd. unfold get_entry, bindM, get_data, lift, ret.
  now rewrite Hd.
Qed.

Lemma write_text_can_write (d : fs) (path txt : string) :
  can_write (write_text d path txt) = can_write d.
Proof. reflexivity. Qed.

(** One step of a run on a world whose store is a dict and whose storage
    is writable leaves such a world. *)
Lemma exec_keeps_dict (w : world) (d : dict) (o : op) :
  data (clipboard w) = PDict d ->
  writable w ->
  exists d',
    data (clipboard (exec w o)) = PDict d' /\ writable (exec w o) /\
    match o with
    | Create c u4 u1 => d' = dict_set (take 8 (uuid_str u4)) (new_entry c u1) d
    | Get _ => d' = d
    end.
Proof.
  intros Hd Hw. destruct o as [c u4 u1 | i]; simpl.
  - rewrite (create_entry_writable w d c u4 u1 Hd Hw). simpl.
    eexists. split; [reflexivity|]. split; [exact Hw | reflexivity].
  - rewrite (get_entry_dict w d i Hd). simpl. now exists d.
Qed.

Lemma take8_uuid_str (n : N) : take 8 (uuid_str n) = hex_field n 32 8.
Proof. reflexivity. Qed.

(** ** Creation and lookup *)

(** C1: for every content string [c], on a store that is a dict with
    writable storage, [create_entry(c)] returns an identifier, and
    [get_entry] of that identifier then returns an entry whose ['content']
    is [c]. *)
Theorem create_then_get (w : world) (d : dict) (c : string) (u4 u1 : N) :
  data (clipboard w) = PDict d ->
  writable w ->
  exists i w' e,
    create_entry (PStr c) u4 u1 w = (Ok i, w') /\
    get_entry i w' = (Ok e, w') /\
    py_getitem e "content" = Ok (PStr c).
Proof.
  intros Hd Hw.
  eexists. eexists. exists (new_entry (PStr c) u1).
  split; [apply (create_entry_writable w d); assumption|].
  split; [|reflexivity].
  erewrite get_entry_dict by reflexivity.
  now rewrite dict_get_set_same.
Qed.

Lemma create_then_get_witness :
  exists i w' e,
    create_entry (PStr "hello") draw_a 1 fresh = (Ok i, w') /\
    get_entry i w' = (Ok e, w') /\
    py_getitem e "content" = Ok (PStr "hello").
Proof.
  apply (create_then_get fresh [] "hello" draw_a 1); reflexivity.
Defined.

(** C4: the identifier [create_entry] returns is the first 8 characters of
    the text of the [uuid4] draw, that is the 8 most significant hex digits
    of its 128 bits, and it has length 8. *)
Theorem entry_id_is_uuid_prefix (w : world) (d : dict) (c : pyval) (u4 u1 : N) :
  data (clipboard w) = PDict d ->
  writable w ->
  fst (create_entry c u4 u1 w) = Ok (take 8 (uuid_str u4)) /\
  take 8 (uuid_str u4) = hex_field u4 32 8 /\
  String.length (take 8 (uuid_str u4)) = 8 /\
  String.length (uuid_str u4) = 36.
Proof.
  intros Hd Hw.
  rewrite (create_entry_writable w d c u4 u1 Hd Hw).
  repeat split; reflexivity.
Qed.

Lemma entry_id_is_uuid_prefix_witness :
  fst (create_entry (PStr "hello") draw_a 1 fresh) = Ok (take 8 (uuid_str draw_a)) /\
  take 8 (uuid_str draw_a) = hex_field draw_a 32 8 /\
  String.length (take 8 (uuid_str draw_a)) = 8 /\
  String.length (uuid_str draw_a) = 36.
Proof.
  apply (entry_id_is_uuid_prefix fresh [] (PStr "hello") draw_a 1); reflexivity.
Defined.

Example entry_id_example : take 8 (uuid_str draw_a) = "deadbeef".
Proof. reflexivity. Qed.

(** C9: [get_entry] leaves the world (the in-memory mapping and the disk)
    as it was, and what it returns does not depend on the disk. *)
Theorem get_entry_pure (w : world) (i : string) :
  snd (get_entry i w) = w /\
  forall dsk : fs,
    fst (get_entry i (mkWorld (clipboard w) dsk)) = fst (get_entry i w).
Proof.
  unfold get_entry, bindM, get_data, lift, ret. simpl.
  destruct (py_get (data (clipboard w)) i); simpl; auto.
Qed.

(** ** Runs of creations and lookups *)

Lemma run_keeps_dict (ops : list op) (w : world) (d : dict) :
  data (clipboard w) = PDict d ->
  writable w ->
  exists d', data (clipboard (run ops w)) = PDict d' /\ writable (run ops w).
Proof.
  revert w d. induction ops as [|o ops IH]; intros w d Hd Hw; simpl.
  - now exists d.
  - destruct (exec_keeps_dict w d o Hd Hw) as (d' & Hd' & Hw' & _).
    apply (IH _ d'); assumption.
Qed.

(** With writable storage every creation of a run returns the identifier
    it draws. *)
Lemma returned_drawn (ops : list op) (w : world) (d : dict) :
  data (clipboard w) = PDict d ->
  writable w ->
  returned ops w = drawn ops.
Proof.
  revert w d. induction ops as [|o ops IH]; intros w d Hd Hw; simpl.
  - reflexivity.
  - destruct (exec_keeps_dict w d o Hd Hw) as (d' & Hd' & Hw' & _).
    rewrite (IH _ d' Hd' Hw').
    destruct o as [c u4 u1 | i]; [|reflexivity].
    now rewrite (create_entry_writable w d c u4 u1 Hd Hw).
Qed.

(** A run changes the store at the identifiers it draws only. *)
Lemma run_frame (ops : list op) (w : world) (d : dict) (i : string) :
  data (clipboard w) = PDict d ->
  writable w ->
  ~ In i (drawn ops) ->
  exists d',
    data (clipboard (run ops w)) = PDict d' /\ dict_get i d' = dict_get i d.
Proof.
  revert w d. induction ops as [|o ops IH]; intros w d Hd Hw Hi; simpl.
  - now exists d.
  - destruct (exec_keeps_dict w d o Hd Hw) as (d1 & Hd1 & Hw1 & Ho).
    destruct o as [c u4 u1 | j]; simpl in Hi.
    + destruct (IH _ d1 Hd1 Hw1) as (d' & Hd' & Hg); [tauto|].
      exists d'. split; [exact Hd'|]. rewrite Hg, Ho.
      apply dict_get_set_other. intros ->. tauto.
    + subst d1. apply (IH _ d Hd1 Hw1 Hi).
Qed.

(** C2 at a run the claim covers and [create_entry] mishandles: the
    docstring promises a unique ID, but the identifier is 32 bits of the
    draw and is stored with no look at the keys the store holds.  A second
    creation whose [uuid4] draw has the same first 8 hex digits returns the
    same identifier, and the first identifier no longer resolves to the
    entry created for it: it gives the second entry. *)
Lemma collision_replaces_entry :
  fst (create_entry (PStr "first") draw_a 1 fresh) = Ok "deadbeef" /\
  fst (get_entry "deadbeef" after_first) = Ok (new_entry (PStr "first") 1) /\
  fst (create_entry (PStr "second") draw_b 2 after_first) = Ok "deadbeef" /\
  fst (get_entry "deadbeef" after_second) = Ok (new_entry (PStr "second") 2) /\
  fst (get_entry "deadbeef" after_second)
    <> fst (get_entry "deadbeef" after_first).
Proof.
  repeat split; try reflexivity.
  vm_compute. discriminate.
Qed.

(** Short of a collision the entry stays: after a creation returned an
    identifier, at every later point of a run of creations and lookups none
    of which draws that identifier again, [get_entry] returns exactly the
    entry created for it (its content and its timestamp). *)
Theorem created_entry_stays
  (w : world) (d : dict) (c : pyval) (u4 u1 : N) (ops : list op) :
  data (clipboard w) = PDict d ->
  writable w ->
  ~ In (take 8 (uuid_str u4)) (drawn ops) ->
  fst (create_entry c u4 u1 w) = Ok (take 8 (uuid_str u4)) /\
  fst (get_entry (take 8 (uuid_str u4))
         (run ops (snd (create_entry c u4 u1 w))))
    = Ok (new_entry c u1).
Proof.
  intros Hd Hw Hi.
  rewrite (create_entry_writable w d c u4 u1 Hd Hw). simpl.
  split; [reflexivity|].
  match goal with |- context [run ops ?w1] => set (w1' := w1) end.
  destruct (run_frame ops w1' _ (take 8 (uuid_str u4)) eq_refl Hw Hi)
    as (d' & Hd' & Hg).
  rewrite (get_entry_dict _ d' _ Hd'). simpl.
  now rewrite Hg, dict_get_set_same.
Qed.

Lemma created_entry_stays_witness :
  fst (create_entry (PStr "first") draw_a 1 fresh) = Ok (take 8 (uuid_str draw_a)) /\
  fst (get_entry (take 8 (uuid_str draw_a))
         (run [Create (PStr "other") 7 8; Get "deadbeef"; Create PNone 9 10]
            (snd (create_entry (PStr "first") draw_a 1 fresh))))
    = Ok (new_entry (PStr "first") 1).
Proof.
  apply (created_entry_stays fresh [] (PStr "first") draw_a 1
           [Create (PStr "other") 7 8; Get "deadbeef"; Create PNone 9 10]).
  - reflexivity.
  - reflexivity.
  - vm_compute. intros [H | [H | H]]; [discriminate H | discriminate H | exact H].
Defined.

(** Whether or not the store can be saved, a creation puts its entry in
    the in-memory dict. *)
Lemma create_entry_data (w : world) (d : dict) (c : pyval) (u4 u1 : N) :
  data (clipboard w) = PDict d ->
  data (clipboard (snd (create_entry c u4 u1 w)))
    = PDict (dict_set (take 8 (uuid_str u4)) (new_entry c u1) d).
Proof.
  intros Hd.
  unfold create_entry, bindM, get_data, lift, set_data, save_data, ret.
  rewrite Hd. simpl.
  destruct (can_write (disk w) (storage_file (clipboard w))); reflexivity.
Qed.

Lemma exec_dict (w : world) (d : dict) (o : op) :
  data (clipboard w) = PDict d ->
  exists d',
    data (clipboard (exec w o)) = PDict d' /\
    match o with
    | Create c u4 u1 => d' = dict_set (take 8 (uuid_str u4)) (new_entry c u1) d
    | Get _ => d' = d
    end.
Proof.
  intros Hd. destruct o as [c u4 u1 | i]; simpl.
  - eexists. split; [apply create_entry_data, Hd | reflexivity].
  - rewrite (get_entry_dict w d i Hd). simpl. now exists d.
Qed.

(** A run changes the store at the identifiers it draws only, whether its
    creations can be saved or not. *)
Lemma run_frame_any (ops : list op) (w : world) (d : dict) (i : string) :
  data (clipboard w) = PDict d ->
  ~ In i (drawn ops) ->
  exists d',
    data (clipboard (run ops w)) = PDict d' /\ dict_get i d' = dict_get i d.
Proof.
  revert w d. induction ops as [|o ops IH]; intros w d Hd Hi; simpl.
  - now exists d.
  - destruct (exec_dict w d o Hd) as (d1 & Hd1 & Ho).
    destruct o as [c u4 u1 | j]; simpl in Hi.
    + destruct (IH _ d1 Hd1) as (d' & Hd' & Hg); [tauto|].
      exists d'. split; [exact Hd'|]. rewrite Hg, Ho.
      apply dict_get_set_other. intros ->. tauto.
    + subst d1. apply (IH _ d Hd1 Hi).
Qed.

(** What a creation returns, it has drawn. *)
Lemma returned_incl_drawn (ops : list op) (w : world) (i : string) :
  In i (returned ops w) -> In i (drawn ops).
Proof.
  revert w. induction ops as [|o ops IH]; intros w; simpl; [tauto|].
  intros H. apply in_app_or in H.
  destruct o as [c u4 u1 | j].
  - destruct H as [H | H]; [|right; exact (IH _ H)].
    unfold create_entry, bindM, get_data, lift, set_data, save_data, ret in H.
    destruct (py_setitem (data (clipboard w)) (take 8 (uuid_str u4))
                (new_entry c u1)); simpl in H; [|contradiction].
    destruct (can_write (disk w) (storage_file (clipboard w))); simpl in H;
      [|contradiction].
    destruct H as [<- | []]. now left.
  - destruct H as [[] | H]. exact (IH _ H).
Qed.

(** C5, as stated, fails: when the storage cannot be written, a creation
    raises and returns no identifier, yet its entry is in the store; the
    identifier it drew was never returned by any creation, and [get_entry]
    finds an entry for it. *)
Lemma failed_creation_leaves_entry :
  data (clipboard read_only) = PDict [] /\
  ~ In "deadbeef" (keys []) /\
  fst (create_entry (PStr "lost") draw_a 1 read_only) = Raise OSError /\
  returned [Create (PStr "lost") draw_a 1] read_only = [] /\
  fst (get_entry "deadbeef" (run [Create (PStr "lost") draw_a 1] read_only))
    = Ok (new_entry (PStr "lost") 1) /\
  fst (get_entry "deadbeef" (run [Create (PStr "lost") draw_a 1] read_only))
    <> Ok PNone.
Proof.
  split; [reflexivity|]. split; [simpl; tauto|].
  split; [reflexivity|]. split; [reflexivity|]. split; [reflexivity|].
  vm_compute. discriminate.
Qed.

(** C5, amended: an identifier that the store did not hold at the start
    and that no creation of the run has drawn, whether the creation
    returned it or raised while saving, makes [get_entry] return [None];
    and that outcome differs from what [get_entry] returns for an entry
    whose content is the empty string. *)
Theorem get_undrawn_not_found
  (w : world) (d : dict) (ops : list op) (i : string) (u4 u1 : N) :
  data (clipboard w) = PDict d ->
  ~ In i (keys d) ->
  ~ In i (drawn ops) ->
  let w' := run ops w in
  let found :=
    fst (get_entry (take 8 (uuid_str u4))
           (snd (create_entry (PStr "") u4 u1 w'))) in
  fst (get_entry i w') = Ok PNone /\
  found = Ok (new_entry (PStr "") u1) /\
  fst (get_entry i w') <> found.
Proof.
  intros Hd Hk Hi w' found. subst w' found.
  destruct (run_frame_any ops w d i Hd Hi) as (d' & Hd' & Hg).
  assert (H1 : fst (get_entry i (run ops w)) = Ok PNone).
  { rewrite (get_entry_dict _ d' _ Hd'). simpl.
    apply dict_get_none_keys in Hk. now rewrite Hg, Hk. }
  assert (H2 : fst (get_entry (take 8 (uuid_str u4))
                      (snd (create_entry (PStr "") u4 u1 (run ops w))))
               = Ok (new_entry (PStr "") u1)).
  { rewrite (get_entry_dict _ _ _
               (create_entry_data (run ops w) d' (PStr "") u4 u1 Hd')).
    simpl. now rewrite dict_get_set_same. }
  rewrite H1, H2. repeat split. discriminate.
Qed.

Lemma get_undrawn_not_found_witness :
  fst (get_entry "doesnotexist"
         (run [Create (PStr "") draw_a 1; Create (PStr "x") 7 8] read_only))
    = Ok PNone /\
  fst (get_entry (take 8 (uuid_str draw_b))
         (snd (create_entry (PStr "") draw_b 2
                 (run [Create (PStr "") draw_a 1; Create (PStr "x") 7 8]
                    read_only))))
    = Ok (new_entry (PStr "") 2) /\
  fst (get_entry "doesnotexist"
         (run [Create (PStr "") draw_a 1; Create (PStr "x") 7 8] read_only))
    <> fst (get_entry (take 8 (uuid_str draw_b))
              (snd (create_entry (PStr "") draw_b 2
                      (run [Create (PStr "") draw_a 1; Create (PStr "x") 7 8]
                         read_only)))).
Proof.
  apply (get_undrawn_not_found read_only []
           [Create (PStr "") draw_a 1; Create (PStr "x") 7 8]
           "doesnotexist" draw_b 2).
  - reflexivity.
  - simpl. tauto.
  - vm_compute. intros [H | [H | H]]; [discriminate H | discriminate H | exact H].
Defined.

(** An entry with empty content is found, and is not [None]. *)
Example empty_content_found :
  fst (get_entry "deadbeef" (run [Create (PStr "") draw_a 1] fresh))
    = Ok (new_entry (PStr "") 1).
Proof. reflexivity. Qed.

(** ** The views *)

Lemma is_entry_truthy (v : pyval) : is_entry v -> truthy v = true.
Proof. intros (c & ts & ->). reflexivity. Qed.

(** On a store whose values are entries as [create_entry] makes them,
    [GET /get/<id>] answers 200 with the whole stored entry (its content
    and its timestamp) when the lookup finds the identifier, and 404 with
    the error payload when it does not; the world is unchanged either
    way. *)
Theorem get_view_found_or_404 (w : world) (d : dict) (i : string) :
  data (clipboard w) = PDict d ->
  entries_ok d ->
  (forall e, dict_get i d = Some e ->
     serve (get_clipboard_entry i) w = (mkResponse 200 (Json e), w) /\
     exists c ts, e = PDict [("content", c); ("timestamp", PStr ts)]) /\
  (dict_get i d = None ->
     serve (get_clipboard_entry i) w =
       (mkResponse 404 (Json (PDict [("error", PStr "Entry not found")])), w)).
Proof.
  intros Hd Hok.
  unfold serve, get_clipboard_entry, bindM.
  rewrite (get_entry_dict w d i Hd).
  split.
  - intros e He. rewrite He.
    rewrite (is_entry_truthy e (Hok i e He)). split; [reflexivity|].
    exact (Hok i e He).
  - intros Hn. now rewrite Hn.
Qed.

Lemma get_view_found_or_404_witness :
  (forall e, dict_get "deadbeef" [("deadbeef", new_entry (PStr "first") 1)] = Some e ->
     serve (get_clipboard_entry "deadbeef") after_first
       = (mkResponse 200 (Json e), after_first) /\
     exists c ts, e = PDict [("content", c); ("timestamp", PStr ts)]) /\
  (dict_get "deadbeef" [("deadbeef", new_entry (PStr "first") 1)] = None ->
     serve (get_clipboard_entry "deadbeef") after_first =
       (mkResponse 404 (Json (PDict [("error", PStr "Entry not found")])),
        after_first)).
Proof.
  apply (get_view_found_or_404 after_first
           [("deadbeef", new_entry (PStr "first") 1)] "deadbeef").
  - reflexivity.
  - apply (entries_ok_set "deadbeef" (PStr "first") 1 []).
    intros k v H. discriminate H.
Defined.

Example get_view_hello :
  fst (serve (get_clipboard_entry "deadbeef") after_first)
    = mkResponse 200 (Json (new_entry (PStr "first") 1)).
Proof. reflexivity. Qed.

Example get_view_doesnotexist :
  fst (serve (get_clipboard_entry "doesnotexist") after_first)
    = mkResponse 404 (Json (PDict [("error", PStr "Entry not found")])).
Proof. reflexivity. Qed.

(** C7 at a store the claim covers and the view mishandles: the docstring
    says the view answers 404 if the entry is not found, but the view tests
    the truth of the stored value, [if entry], not whether the key is
    there.  A storage file that holds an empty object under the identifier
    [abc] loads, [abc] is a key of the store, and [GET /get/abc] is answered
    404 with [Entry not found]; an identifier whose value is an entry of
    [create_entry] is answered 200 with it. *)
Theorem get_view_present_key_404 :
  init "clipboard_data.json" (disk hand_edited) = Ok hand_edited /\
  data (clipboard hand_edited) = PDict [("abc", PDict [])] /\
  In "abc" (keys [("abc", PDict [])]) /\
  serve (get_clipboard_entry "abc") hand_edited =
    (mkResponse 404 (Json (PDict [("error", PStr "Entry not found")])),
     hand_edited) /\
  serve (get_clipboard_entry "deadbeef") after_first =
    (mkResponse 200 (Json (new_entry (PStr "first") 1)), after_first).
Proof.
  split; [reflexivity|]. split; [reflexivity|].
  split; [simpl; tauto|]. split; reflexivity.
Qed.

(** An object with ['content'] is answered 200 on a writable store, and
    the world is the one [create_entry] leaves. *)
Lemma create_view_accepts
  (w : world) (d body : dict) (c : pyval) (u4 u1 : N) :
  data (clipboard w) = PDict d ->
  writable w ->
  dict_get "content" body = Some c ->
  serve (create_clipboard_entry (PDict body) u4 u1) w
    = (mkResponse 200 (Json (PDict [("id", PStr (take 8 (uuid_str u4)))])),
       snd (create_entry c u4 u1 w)).
Proof.
  intros Hd Hw Hc.
  unfold serve, create_clipboard_entry, bindM, lift, ret.
  assert (Ht : truthy (PDict body) = true).
  { destruct body; [discriminate Hc | reflexivity]. }
  rewrite Ht. simpl. unfold dict_mem. rewrite Hc. simpl.
  now rewrite (create_entry_writable w d c u4 u1 Hd Hw).
Qed.

(** C10: a body that is a JSON object with the key ['content'] is answered
    200 with the generated identifier, whatever the value of ['content']
    is, and the store then holds that value unchanged under the
    identifier. *)
Theorem create_view_any_content
  (w : world) (d body : dict) (c : pyval) (u4 u1 : N) :
  data (clipboard w) = PDict d ->
  writable w ->
  dict_get "content" body = Some c ->
  let i := take 8 (uuid_str u4) in
  let w' := snd (serve (create_clipboard_entry (PDict body) u4 u1) w) in
  fst (serve (create_clipboard_entry (PDict body) u4 u1) w)
    = mkResponse 200 (Json (PDict [("id", PStr i)])) /\
  fst (get_entry i w') = Ok (new_entry c u1) /\
  py_getitem (new_entry c u1) "content" = Ok c.
Proof.
  intros Hd Hw Hc i w'. subst w' i.
  rewrite (create_view_accepts w d body c u4 u1 Hd Hw Hc).
  rewrite (create_entry_writable w d c u4 u1 Hd Hw).
  split; [reflexivity|]. split; [|reflexivity].
  cbv [snd]. erewrite get_entry_dict by reflexivity.
  cbv [fst]. now rewrite dict_get_set_same.
Qed.

Lemma create_view_any_content_witness :
  fst (serve (create_clipboard_entry (PDict [("content", PNone)]) draw_a 1) fresh)
    = mkResponse 200 (Json (PDict [("id", PStr (take 8 (uuid_str draw_a)))])) /\
  fst (get_entry (take 8 (uuid_str draw_a))
         (snd (serve (create_clipboard_entry (PDict [("content", PNone)]) draw_a 1)
                 fresh)))
    = Ok (new_entry PNone 1) /\
  py_getitem (new_entry PNone 1) "content" = Ok PNone.
Proof.
  apply (create_view_any_content fresh [] [("content", PNone)] PNone draw_a 1);
    reflexivity.
Defined.

Example create_view_number :
  fst (serve (create_clipboard_entry (PDict [("content", PInt 42)]) draw_a 1) fresh)
    = mkResponse 200 (Json (PDict [("id", PStr "deadbeef")])).
Proof. reflexivity. Qed.

(** A missing body, an empty object and an object without ['content'] are
    answered 400 and nothing is created. *)
Lemma create_view_rejects (w : world) (req : pyval) (u4 u1 : N) :
  req = PNone \/ (exists d, req = PDict d /\ dict_get "content" d = None) ->
  serve (create_clipboard_entry req u4 u1) w =
    (mkResponse 400 (Json (PDict [("error", PStr "Content is required")])), w).
Proof.
  intros [-> | (d & -> & Hn)]; [reflexivity|].
  unfold serve, create_clipboard_entry, bindM, lift, ret. simpl.
  destruct d as [|kv d]; [reflexivity|].
  simpl. simpl in Hn. unfold dict_mem. simpl. now rewrite Hn.
Qed.

(** C6 at a body the claim covers and the view mishandles: the JSON number
    5 is valid JSON without a ['content'] field; ['content' not in 5]
    raises [TypeError], so the answer is 500, not 400, in every world.  A
    JSON string that contains the word, and an array that has it as an
    item, pass the test and fail at [data['content']]. *)
Theorem create_view_non_object_body (w : world) (u4 u1 : N) :
  serve (create_clipboard_entry (PInt 5) u4 u1) w
    = (mkResponse 500 ErrorPage, w) /\
  serve (create_clipboard_entry (PStr "my content") u4 u1) w
    = (mkResponse 500 ErrorPage, w) /\
  serve (create_clipboard_entry (PList [PStr "content"]) u4 u1) w
    = (mkResponse 500 ErrorPage, w).
Proof. repeat split. Qed.

(** ** Loading *)

Lemma load_data_missing (path : string) (d : fs) :
  at_path d path = None -> load_data path d = Ok (PDict []).
Proof. intros H. unfold load_data. now rewrite H. Qed.

Lemma load_data_parsed (path : string) (d : fs) (txt : string) (v : pyval) :
  at_path d path = Some (mkFile (Text txt) true) ->
  json_loads txt = Some v ->
  load_data path d = Ok v.
Proof. intros H Hv. unfold load_data, json_load. rewrite H. simpl. now rewrite Hv. Qed.

Lemma load_data_malformed (path : string) (d : fs) (txt : string) :
  at_path d path = Some (mkFile (Text txt) true) ->
  json_loads txt = None ->
  load_data path d = Ok (PDict []).
Proof. intros H Hv. unfold load_data, json_load. rewrite H. simpl. now rewrite Hv. Qed.

Lemma load_data_unreadable (path : string) (d : fs) (b : content) :
  at_path d path = Some (mkFile b false) ->
  load_data path d = Ok (PDict []).
Proof. intros H. unfold load_data, json_load. now rewrite H. Qed.

(** C3 at a storage state the claim covers and [load_data] mishandles: the
    file exists and opens, its bytes are not text in the locale's encoding,
    so reading raises [UnicodeDecodeError], which is neither a
    [JSONDecodeError] nor an [IOError]; [load_data] raises it and the store
    cannot be built.  A file that holds a JSON array parses, and is
    returned as the store although it is no mapping. *)
Theorem load_data_undecodable_raises :
  load_data "clipboard_data.json" corrupt_disk = Raise UnicodeDecodeError /\
  init "clipboard_data.json" corrupt_disk = Raise UnicodeDecodeError /\
  load_data "clipboard_data.json" array_disk = Ok (PList []).
Proof. repeat split. Qed.

(** ** The JSON text round trip *)

Lemma append_assoc (a b c : string) : (a ++ b) ++ c = a ++ (b ++ c).
Proof. induction a as [|x a IH]; simpl; [reflexivity | now rewrite IH]. Qed.

Lemma length_append (a b : string) :
  String.length (a ++ b) = String.length a + String.length b.
Proof. induction a as [|x a IH]; simpl; [reflexivity | now rewrite IH]. Qed.

(** *** Strings *)

Lemma scan_escape_char (c : ascii) (t : string) :
  scan_string (escape_char c ++ t) = cons_fst c (scan_string t).
Proof.
  destruct c as [[] [] [] [] [] [] [] []]; reflexivity.
Qed.

Lemma scan_escape (s rest : string) :
  scan_string (escape s ++ String quote rest) = Some (s, rest).
Proof.
  induction s as [|c s IH]; simpl.
  - reflexivity.
  - rewrite append_assoc, scan_escape_char, IH. reflexivity.
Qed.

Lemma dump_str_append (s rest : string) :
  dump_str s ++ rest = String quote (escape s ++ String quote rest).
Proof. unfold dump_str. simpl. now rewrite append_assoc. Qed.

(** *** Integers *)

Lemma read_digits_uint (u : uint) (rest : string) :
  ends_number rest = true ->
  read_digits (NilEmpty.string_of_uint u ++ rest) = (u, rest).
Proof.
  intros Hr.
  induction u; simpl; try (rewrite IHu; reflexivity).
  destruct rest as [|c rest]; [reflexivity|].
  simpl. simpl in Hr.
  destruct (digit_of_char c); [discriminate | reflexivity].
Qed.

Lemma ends_number_no_float (rest : string) :
  ends_number rest = true -> float_follows rest = false.
Proof.
  destruct rest as [|c rest]; [reflexivity|].
  unfold ends_number. destruct (digit_of_char c); [discriminate|].
  now destruct (float_follows (String c rest)).
Qed.

Lemma to_uint_head (p : positive) :
  match Pos.to_uint p with
  | Nil | D0 _ => False
  | _ => True
  end.
Proof.
  pose proof (Unsigned.to_of (Pos.to_uint p)) as H.
  rewrite Unsigned.of_to in H. simpl in H.
  pose proof (Unsigned.to_uint_nonzero p) as Hz.
  pose proof (nzhead_nonzero (Pos.to_uint p)) as Hn.
  unfold unorm in H.
  destruct (nzhead (Pos.to_uint p)) eqn:E; rewrite H; try exact I.
  - apply Hz. exact H.
  - exact (Hn _ eq_refl).
Qed.

Lemma parse_nat_pos (p : positive) (rest : string) :
  ends_number rest = true ->
  parse_nat (NilEmpty.string_of_uint (Pos.to_uint p) ++ rest)
    = Some (Zpos p, rest).
Proof.
  intros Hr. unfold parse_nat.
  rewrite (read_digits_uint _ _ Hr), (ends_number_no_float _ Hr).
  pose proof (to_uint_head p) as Hh.
  pose proof (Unsigned.of_to p) as Ho.
  destruct (Pos.to_uint p); try contradiction; rewrite Ho; reflexivity.
Qed.

Lemma parse_int_dump (z : Z) (rest : string) :
  ends_number rest = true ->
  parse_int (dump_int z ++ rest) = Some (z, rest).
Proof.
  intros Hr. destruct z as [|p|p]; simpl.
  - unfold parse_nat. simpl.
    destruct rest as [|c rest]; [reflexivity|].
    simpl. simpl in Hr. unfold float_follows in Hr.
    destruct (digit_of_char c); [discriminate|].
    unfold float_follows.
    destruct (_ || _); [discriminate | reflexivity].
  - pose proof (to_uint_head p) as Hh.
    pose proof (parse_nat_pos p rest Hr) as Hp.
    destruct (Pos.to_uint p) eqn:E; try contradiction; simpl in *;
      exact Hp.
  - now rewrite (parse_nat_pos p rest Hr).
Qed.

(** *** The reader on small texts *)

Example loads_object :
  json_loads "{ }" = Some (PDict []) /\
  json_loads " [0 , -0, 10, null, true ] "
    = Some (PList [PInt 0; PInt 0; PInt 10; PNone; PBool true]).
Proof. split; reflexivity. Qed.

Example loads_rejects :
  json_loads "" = None /\ json_loads "[01]" = None /\
  json_loads "[1,]" = None /\ json_loads "{} {}" = None /\
  json_loads "nul" = None.
Proof. repeat split. Qed.

Example dumps_nested :
  json_dumps (PList [PInt (-7); PList []; PDict []]) =
    "[" ++ nl_indent 1 ++ "-7," ++ nl_indent 1 ++ "[]," ++ nl_indent 1
    ++ "{}" ++ nl_indent 0 ++ "]".
Proof. reflexivity. Qed.

(** *** Blanks and the first character of a value *)

Lemma skip_ws_spaces (n : nat) (s : string) :
  skip_ws (spaces n ++ s) = skip_ws s.
Proof. induction n as [|n IH]; simpl; [reflexivity | exact IH]. Qed.

Lemma skip_ws_nl_indent (lvl : nat) (s : string) :
  skip_ws (nl_indent lvl ++ s) = skip_ws s.
Proof. unfold nl_indent. simpl. apply skip_ws_spaces. Qed.

Lemma skip_ws_value_head (s : string) :
  value_head s = true -> skip_ws s = s.
Proof.
  destruct s as [|c s]; [reflexivity|]. simpl.
  destruct (is_ws c); [discriminate | reflexivity].
Qed.

Lemma value_head_dump (lvl : nat) (v : pyval) (t : string) :
  value_head (dump lvl v ++ t) = true.
Proof.
  destruct v as [|[]|z|s|[|x l]|[|[k x] d]]; try reflexivity.
  destruct z as [|p|p]; try reflexivity.
  simpl. pose proof (to_uint_head p) as H.
  destruct (Pos.to_uint p); try contradiction; reflexivity.
Qed.

(** *** The reader, one step at a time *)

Lemma parse_items_eq (f : nat) (s : string) :
  parse_items (S f) s =
    match parse_value f s with
    | Some (v, r) =>
        match skip_ws r with
        | String c r1 =>
            if Ascii.eqb c "]" then Some ([v], r1)
            else if Ascii.eqb c "," then
              match parse_items f (skip_ws r1) with
              | Some (l, r2) => Some (v :: l, r2)
              | None => None
              end
            else None
        | "" => None
        end
    | None => None
    end.
Proof. reflexivity. Qed.

Lemma parse_members_eq (f : nat) (s : string) :
  parse_members (S f) s =
    match scan_string s with
    | Some (k, r) =>
        match skip_ws r with
        | String c r1 =>
            if Ascii.eqb c ":" then
              match parse_value f (skip_ws r1) with
              | Some (v, r2) =>
                  match skip_ws r2 with
                  | String c2 r3 =>
                      if Ascii.eqb c2 "}" then Some ([(k, v)], r3)
                      else if Ascii.eqb c2 "," then
                        match skip_ws r3 with
                        | String c3 r4 =>
                            if Ascii.eqb c3 quote then
                              match parse_members f r4 with
                              | Some (l, r5) => Some ((k, v) :: l, r5)
                              | None => None
                              end
                            else None
                        | "" => None
                        end
                      else None
                  | "" => None
                  end
              | None => None
              end
            else None
        | "" => None
        end
    | None => None
    end.
Proof. reflexivity. Qed.

Lemma parse_value_list (f : nat) (r : string) :
  parse_value (S f) (String "[" r) =
    match skip_ws r with
    | String c1 r1 =>
        if Ascii.eqb c1 "]" then Some (PList [], r1)
        else
          match parse_items f (String c1 r1) with
          | Some (l, r2) => Some (PList l, r2)
          | None => None
          end
    | "" => None
    end.
Proof. reflexivity. Qed.

Lemma parse_value_dict (f : nat) (r : string) :
  parse_value (S f) (String "{" r) =
    match skip_ws r with
    | String c1 r1 =>
        if Ascii.eqb c1 "}" then Some (PDict [], r1)
        else if Ascii.eqb c1 quote then
          match parse_members f r1 with
          | Some (l, r2) => Some (PDict (dict_of_pairs l), r2)
          | None => None
          end
        else None
    | "" => None
    end.
Proof. reflexivity. Qed.

Lemma parse_value_str (f : nat) (s rest : string) :
  parse_value (S f) (dump_str s ++ rest) = Some (PStr s, rest).
Proof.
  rewrite dump_str_append.
  change (parse_value (S f) (String quote (escape s ++ String quote rest)))
    with (match scan_string (escape s ++ String quote rest) with
          | Some (str, r') => Some (PStr str, r')
          | None => None
          end).
  now rewrite scan_escape.
Qed.

Lemma parse_value_int (f : nat) (z : Z) (rest : string) :
  ends_number rest = true ->
  parse_value (S f) (dump_int z ++ rest) = Some (PInt z, rest).
Proof.
  intros Hr.
  assert (H : parse_value (S f) (dump_int z ++ rest) =
              match parse_int (dump_int z ++ rest) with
              | Some (z', r') => Some (PInt z', r')
              | None => None
              end).
  { destruct z as [|p|p]; try reflexivity.
    simpl. pose proof (to_uint_head p) as Hh.
    destruct (Pos.to_uint p); try contradiction; reflexivity. }
  rewrite H. now rewrite (parse_int_dump z rest Hr).
Qed.

(** *** Building the dict *)

Lemma dict_set_fresh (k : string) (v : pyval) (d : dict) :
  ~ In k (keys d) -> dict_set k v d = (d ++ [(k, v)])%list.
Proof.
  induction d as [|[k' v'] d IH]; simpl; intros H.
  - reflexivity.
  - destruct (String.eqb k k') eqn:E.
    + apply String.eqb_eq in E. subst. tauto.
    + rewrite IH by tauto. reflexivity.
Qed.

Lemma fold_dict_set (l acc : list (string * pyval)) :
  NoDup (keys (acc ++ l)%list) ->
  fold_left (fun d kv => dict_set (fst kv) (snd kv) d) l acc = (acc ++ l)%list.
Proof.
  revert acc. induction l as [|[k v] l IH]; intros acc H; simpl.
  - now rewrite List.app_nil_r.
  - rewrite dict_set_fresh.
    + rewrite IH; rewrite <- List.app_assoc; [reflexivity | exact H].
    + unfold keys in H. rewrite map_app in H. simpl in H.
      apply NoDup_remove_2 in H. intros Hin. apply H.
      apply in_or_app. now left.
Qed.

Lemma dict_of_pairs_nodup (l : list (string * pyval)) :
  NoDup (keys l) -> dict_of_pairs l = l.
Proof. intros H. unfold dict_of_pairs. now rewrite fold_dict_set. Qed.

(** *** Values *)

Lemma size_pos (v : pyval) : 1 <= size v.
Proof. destruct v; simpl; lia. Qed.

Lemma ends_number_items (dmp : pyval -> string) (lvl : nat)
  (l : list pyval) (rest : string) :
  ends_number (dump_items dmp lvl l ++ rest) = true.
Proof. destruct l; reflexivity. Qed.

Lemma ends_number_members (dmp : pyval -> string) (lvl : nat)
  (d : list (string * pyval)) (rest : string) :
  ends_number (dump_members dmp lvl d ++ rest) = true.
Proof. destruct d as [|[k x] d]; reflexivity. Qed.

Lemma items_read (n : nat) (H : reads n) (l : list pyval) :
  forall x f lvl rest,
    f <= S n -> sum_items size (x :: l) <= f ->
    all_items dict_ok (x :: l) ->
    parse_items f (dump (S lvl) x ++ dump_items (dump (S lvl)) lvl l ++ rest)
      = Some (x :: l, rest).
Proof.
  induction l as [|y l IH]; intros x f lvl rest Hf Hs [Hx Hl];
    (destruct f as [|f]; [simpl in Hs; lia|]);
    rewrite parse_items_eq;
    (rewrite H; [| lia | simpl in Hs; lia | exact Hx
                 | apply ends_number_items]).
  - cbn [dump_items]. rewrite append_assoc, skip_ws_nl_indent. reflexivity.
  - cbn [dump_items]. rewrite !append_assoc.
    change (skip_ws ("," ++ ?s)) with (String "," s).
    cbv iota beta.
    change (Ascii.eqb "," "]") with false.
    change (Ascii.eqb "," ",") with true.
    cbv iota.
    rewrite skip_ws_nl_indent.
    rewrite skip_ws_value_head by apply value_head_dump.
    rewrite IH; [reflexivity | lia | simpl in Hs |- *; lia | exact Hl].
Qed.

Lemma members_read (n : nat) (H : reads n) (d : list (string * pyval)) :
  forall k x f lvl rest,
    f <= S n -> sum_values size ((k, x) :: d) <= f ->
    all_values dict_ok ((k, x) :: d) ->
    parse_members f
      (escape k ++ String quote
         (": " ++ dump (S lvl) x ++ dump_members (dump (S lvl)) lvl d ++ rest))
      = Some ((k, x) :: d, rest).
Proof.
  induction d as [|[k' y] d IH]; intros k x f lvl rest Hf Hs [Hx Hd];
    (destruct f as [|f]; [simpl in Hs; lia|]);
    rewrite parse_members_eq, scan_escape;
    change (skip_ws (": " ++ ?s)) with (String ":" (String " " s));
    cbv iota beta;
    change (Ascii.eqb ":" ":") with true;
    cbv iota;
    change (skip_ws (String " " ?s)) with (skip_ws s);
    (rewrite skip_ws_value_head by apply value_head_dump);
    (rewrite H; [| lia | simpl in Hs; lia | exact Hx
                 | apply ends_number_members]).
  - cbn [dump_members]. rewrite append_assoc, skip_ws_nl_indent. reflexivity.
  - cbn [dump_members]. rewrite !append_assoc.
    change (skip_ws ("," ++ ?s)) with (String "," s).
    cbv iota beta.
    change (Ascii.eqb "," "}") with false.
    change (Ascii.eqb "," ",") with true.
    cbv iota.
    rewrite skip_ws_nl_indent, dump_str_append.
    change (skip_ws (String quote ?s)) with (String quote s).
    cbv iota beta.
    change (Ascii.eqb quote quote) with true.
    cbv iota.
    rewrite IH; [reflexivity | lia | simpl in Hs |- *; lia | exact Hd].
Qed.

Lemma reads_all (n : nat) : reads n.
Proof.
  induction n as [|n IH]; intros f v lvl rest Hf Hs Hok Hr.
  - pose proof (size_pos v). lia.
  - destruct f as [|f]; [pose proof (size_pos v); lia|].
    destruct v as [|[]|z|s|[|x l]|[|[k x] d]]; try reflexivity.
    + apply parse_value_int, Hr.
    + apply parse_value_str.
    + cbn [dump]. rewrite !append_assoc.
      change ("[" ++ ?s) with (String "[" s).
      rewrite parse_value_list, skip_ws_nl_indent.
      remember (dump (S lvl) x ++ dump_items (dump (S lvl)) lvl l ++ rest)
        as t eqn:Et.
      assert (Hh : value_head t = true) by (subst t; apply value_head_dump).
      rewrite (skip_ws_value_head t Hh).
      destruct t as [|c1 r1]; [discriminate Hh|].
      simpl in Hh.
      destruct (Ascii.eqb c1 "]"); [now rewrite andb_false_r in Hh|].
      rewrite Et, (items_read n IH);
        [reflexivity | lia | simpl in Hs |- *; lia | exact Hok].
    + cbn [dump]. rewrite !append_assoc.
      change ("{" ++ ?s) with (String "{" s).
      rewrite parse_value_dict, skip_ws_nl_indent, dump_str_append.
      change (skip_ws (String quote ?s)) with (String quote s).
      cbv iota beta.
      change (Ascii.eqb quote "}") with false.
      change (Ascii.eqb quote quote) with true.
      cbv iota.
      destruct Hok as [Hnd Hall].
      rewrite (members_read n IH); [| lia | simpl in Hs |- *; lia | exact Hall].
      now rewrite dict_of_pairs_nodup.
Qed.

(** *** The text is long enough to be read with its length as fuel *)

Lemma append_nil_r (s : string) : s ++ "" = s.
Proof. induction s as [|c s IH]; simpl; [reflexivity | now rewrite IH]. Qed.

Lemma length_nl_indent (lvl : nat) : 1 <= String.length (nl_indent lvl).
Proof. unfold nl_indent. simpl. lia. Qed.

Lemma items_fit (n : nat) (H : fits n) (lvl : nat) (l : list pyval) :
  sum_items size l <= n ->
  sum_items size l < String.length (dump_items (dump (S lvl)) lvl l).
Proof.
  induction l as [|y l IH]; intros Hs; cbn [dump_items sum_items] in *.
  - rewrite length_append. pose proof (length_nl_indent lvl). lia.
  - rewrite !length_append.
    pose proof (H y (S lvl)). pose proof (length_nl_indent (S lvl)).
    simpl String.length at 1. lia.
Qed.

Lemma members_fit (n : nat) (H : fits n) (lvl : nat)
  (d : list (string * pyval)) :
  sum_values size d <= n ->
  sum_values size d < String.length (dump_members (dump (S lvl)) lvl d).
Proof.
  induction d as [|[k y] d IH]; intros Hs; cbn [dump_members sum_values] in *.
  - rewrite length_append. pose proof (length_nl_indent lvl). lia.
  - rewrite !length_append.
    pose proof (H y (S lvl)). pose proof (length_nl_indent (S lvl)).
    simpl String.length at 1. lia.
Qed.

Lemma fits_all (n : nat) : fits n.
Proof.
  induction n as [|n IH]; intros v lvl Hs.
  - pose proof (size_pos v). lia.
  - destruct v as [|[]|z|s|[|x l]|[|[k x] d]]; try (simpl; lia).
    + pose proof (value_head_dump lvl (PInt z) "") as Hh.
      rewrite append_nil_r in Hh.
      destruct (dump lvl (PInt z)); [discriminate Hh | simpl; lia].
    + cbn [dump size sum_items] in *. rewrite !length_append.
      pose proof (IH x (S lvl)).
      pose proof (items_fit n IH lvl l).
      pose proof (length_nl_indent (S lvl)).
      simpl String.length at 1. lia.
    + cbn [dump size sum_values] in *. rewrite !length_append.
      pose proof (IH x (S lvl)).
      pose proof (members_fit n IH lvl d).
      pose proof (length_nl_indent (S lvl)).
      simpl String.length at 1. lia.
Qed.

(** [json.loads(json.dumps(v, indent=2)) == v] for every value whose dicts
    hold each key once. *)
Lemma json_loads_dumps (v : pyval) :
  dict_ok v -> json_loads (json_dumps v) = Some v.
Proof.
  intros Hok. unfold json_loads, json_dumps.
  pose proof (value_head_dump 0 v "") as Hh.
  rewrite append_nil_r in Hh.
  rewrite (skip_ws_value_head _ Hh).
  rewrite <- (append_nil_r (dump 0 v)) at 2.
  rewrite (reads_all (S (String.length (dump 0 v)))); try reflexivity.
  - pose proof (fits_all (size v) v 0). lia.
  - exact Hok.
Qed.

(** ** Persisting and loading *)

Lemma load_after_write (d : fs) (path txt : string) (v : pyval) :
  match at_path d path with Some f => readable f = true | None => True end ->
  json_loads txt = Some v ->
  load_data path (write_text d path txt) = Ok v.
Proof.
  intros Hr Hv. unfold load_data, write_text, json_load. simpl.
  rewrite String.eqb_refl. simpl.
  destruct (at_path d path) as [f|]; [rewrite Hr|]; simpl; now rewrite Hv.
Qed.



(** What [create_entry] wrote is what a restart loads. *)
Example restart_after_create :
  load_data "clipboard_data.json" (disk after_second)
    = Ok (data (clipboard after_second)).
Proof. reflexivity. Qed.

Example saved_text :
  at_path (disk after_first) "clipboard_data.json" =
    Some (mkFile
            (Text (String "{" (nl_indent 1 ++ dump_str "deadbeef" ++ ": {"
                     ++ nl_indent 2 ++ dump_str "content" ++ ": "
                     ++ dump_str "first" ++ "," ++ nl_indent 2
                     ++ dump_str "timestamp" ++ ": "
                     ++ dump_str "00000000-0000-0000-0000-000000000001"
                     ++ nl_indent 1 ++ "}" ++ nl_indent 0 ++ "}")))
            true).
Proof. reflexivity. Qed.

(** *** The store stays a Python dict *)

Lemma keys_dict_set (k : string) (v : pyval) (d : dict) :
  keys (dict_set k v d) = keys d \/
  (~ In k (keys d) /\ keys (dict_set k v d) = (keys d ++ [k])%list).
Proof.
  induction d as [|[k' v'] d IH]; simpl.
  - right. split; [tauto | reflexivity].
  - destruct (String.eqb k k') eqn:E; simpl.
    + now left.
    + apply String.eqb_neq in E.
      destruct IH as [-> | [Hn ->]]; [now left | right].
      split; [intros [H | H]; [congruence | tauto] | reflexivity].
Qed.

Lemma all_values_set (P : pyval -> Prop) (k : string) (v : pyval) (d : dict) :
  P v -> all_values P d -> all_values P (dict_set k v d).
Proof.
  intros Hv. induction d as [|[k' v'] d IH]; simpl.
  - tauto.
  - destruct (String.eqb k k'); simpl; tauto.
Qed.

Lemma dict_ok_set (k : string) (v : pyval) (d : dict) :
  dict_ok v -> dict_ok (PDict d) -> dict_ok (PDict (dict_set k v d)).
Proof.
  intros Hv [Hnd Hall]. split.
  - destruct (keys_dict_set k v d) as [-> | [Hn ->]]; [exact Hnd|].
    apply NoDup_app; [exact Hnd | repeat constructor; simpl; tauto |].
    intros x Hx [<- | []]. exact (Hn Hx).
  - now apply all_values_set.
Qed.

Lemma dict_ok_new_entry (c : pyval) (u1 : N) :
  dict_ok c -> dict_ok (new_entry c u1).
Proof.
  intros Hc. simpl. repeat split; [|exact Hc].
  repeat constructor; simpl; intuition discriminate.
Qed.

(** After a creation, a restart on the disk it left builds the store the
    process had. *)
Lemma restart_after_creation (w : world) (d : dict) (c : pyval) (u4 u1 : N) :
  data (clipboard w) = PDict d ->
  dict_ok (PDict d) ->
  dict_ok c ->
  writable w ->
  loadable w ->
  let w' := snd (create_entry c u4 u1 w) in
  init (storage_file (clipboard w)) (disk w') = Ok w'.
Proof.
  intros Hd Hok Hc Hw Hl w'. subst w'.
  rewrite (create_entry_writable w d c u4 u1 Hd Hw). cbn [snd disk].
  unfold init.
  rewrite (load_after_write _ _ _
             (PDict (dict_set (take 8 (uuid_str u4)) (new_entry c u1) d)) Hl).
  - reflexivity.
  - apply json_loads_dumps, dict_ok_set; [apply dict_ok_new_entry, Hc | exact Hok].
Qed.

(** * Further properties of the store *)

Lemma keys_dict_set_present (k : string) (v : pyval) (d : dict) :
  In k (keys d) -> keys (dict_set k v d) = keys d.
Proof.
  intros Hin. destruct (keys_dict_set k v d) as [H | [Hn _]];
    [exact H | contradiction].
Qed.

Lemma keys_dict_set_fresh (k : string) (v : pyval) (d : dict) :
  ~ In k (keys d) -> keys (dict_set k v d) = (keys d ++ [k])%list.
Proof.
  intros Hn. rewrite (dict_set_fresh k v d Hn). unfold keys.
  now rewrite map_app.
Qed.

Lemma dict_get_some_keys (k : string) (v : pyval) (d : dict) :
  dict_get k d = Some v -> In k (keys d).
Proof.
  intros H. destruct (in_dec string_dec k (keys d)) as [Hin | Hn];
    [exact Hin|].
  apply dict_get_none_keys in Hn. congruence.
Qed.

(** X1: a creation that draws an identifier the store already holds puts
    the new entry in the place of the old one: the keys, their order and
    their number stay, and every other entry is untouched. *)
Theorem create_entry_replaces_existing
  (w : world) (d : dict) (c old : pyval) (u4 u1 : N) :
  data (clipboard w) = PDict d ->
  writable w ->
  dict_get (take 8 (uuid_str u4)) d = Some old ->
  exists d',
    data (clipboard (snd (create_entry c u4 u1 w))) = PDict d' /\
    keys d' = keys d /\
    dict_get (take 8 (uuid_str u4)) d' = Some (new_entry c u1) /\
    forall j, j <> take 8 (uuid_str u4) -> dict_get j d' = dict_get j d.
Proof.
  intros Hd Hw Hold.
  rewrite (create_entry_writable w d c u4 u1 Hd Hw). cbn [snd clipboard data].
  eexists. split; [reflexivity|]. split; [|split].
  - apply keys_dict_set_present. exact (dict_get_some_keys _ _ _ Hold).
  - apply dict_get_set_same.
  - intros j Hj. now apply dict_get_set_other.
Qed.

Lemma create_entry_replaces_existing_witness :
  exists d',
    data (clipboard (snd (create_entry (PStr "second") draw_b 2 after_first)))
      = PDict d' /\
    keys d' = keys [("deadbeef", new_entry (PStr "first") 1)] /\
    dict_get (take 8 (uuid_str draw_b)) d' = Some (new_entry (PStr "second") 2) /\
    forall j, j <> take 8 (uuid_str draw_b) ->
      dict_get j d' = dict_get j [("deadbeef", new_entry (PStr "first") 1)].
Proof.
  apply (create_entry_replaces_existing after_first
           [("deadbeef", new_entry (PStr "first") 1)]
           (PStr "second") (new_entry (PStr "first") 1) draw_b 2);
    reflexivity.
Defined.

(** X2: when the identifiers a run draws are pairwise distinct and new to
    the store, the store's keys after the run are the old keys followed by
    the drawn identifiers in the order of the calls; the store has grown by
    one entry per creation. *)
Theorem run_appends_keys (ops : list op) (w : world) (d : dict) :
  data (clipboard w) = PDict d ->
  writable w ->
  NoDup (keys d ++ drawn ops) ->
  exists d',
    data (clipboard (run ops w)) = PDict d' /\
    keys d' = (keys d ++ drawn ops)%list /\
    List.length d' = List.length d + List.length (drawn ops).
Proof.
  revert w d. induction ops as [|o ops IH]; intros w d Hd Hw Hnd.
  - exists d. simpl. rewrite List.app_nil_r. auto.
  - destruct (exec_keeps_dict w d o Hd Hw) as (d1 & Hd1 & Hw1 & Ho).
    destruct o as [c u4 u1 | i]; cbn [drawn] in *.
    + assert (Hfresh : ~ In (take 8 (uuid_str u4)) (keys d)).
      { apply NoDup_remove_2 in Hnd. intros Hin. apply Hnd.
        apply in_or_app. now left. }
      assert (Hk : keys d1 = (keys d ++ [take 8 (uuid_str u4)])%list).
      { subst d1. now apply keys_dict_set_fresh. }
      destruct (IH _ d1 Hd1 Hw1) as (d' & Hd' & Hk' & Hlen).
      { rewrite Hk, <- List.app_assoc. exact Hnd. }
      exists d'. split; [exact Hd'|]. split.
      * rewrite Hk', Hk, <- List.app_assoc. reflexivity.
      * rewrite Hlen. unfold keys in Hk.
        apply (f_equal (@List.length string)) in Hk.
        rewrite List.length_app, !List.length_map in Hk. simpl in *. lia.
    + subst d1. apply (IH _ d Hd1 Hw1 Hnd).
Qed.

Lemma run_appends_keys_witness :
  exists d',
    data (clipboard (run [Create (PStr "a") draw_a 1; Get "deadbeef";
                          Create PNone 7 8] fresh)) = PDict d' /\
    keys d' = (keys [] ++ drawn [Create (PStr "a") draw_a 1; Get "deadbeef";
                                 Create PNone 7 8])%list /\
    List.length d' =
      List.length (@nil (string * pyval))
      + List.length (drawn [Create (PStr "a") draw_a 1; Get "deadbeef";
                            Create PNone 7 8]).
Proof.
  apply (run_appends_keys
           [Create (PStr "a") draw_a 1; Get "deadbeef"; Create PNone 7 8]
           fresh []).
  - reflexivity.
  - reflexivity.
  - vm_compute. repeat constructor; simpl; intuition discriminate.
Defined.

(** ** When the storage cannot be written *)

Lemma create_entry_unwritable (w : world) (d : dict) (c : pyval) (u4 u1 : N) :
  data (clipboard w) = PDict d ->
  can_write (disk w) (storage_file (clipboard w)) = false ->
  create_entry c u4 u1 w =
    (Raise OSError,
     mkWorld (mkClipboard (storage_file (clipboard w))
                (PDict (dict_set (take 8 (uuid_str u4)) (new_entry c u1) d)))
       (disk w)).
Proof.
  intros Hd Hw.
  unfold create_entry, bindM, get_data, lift, set_data, save_data, ret.
  rewrite Hd. simpl. now rewrite Hw.
Qed.

(** X3: when the storage file cannot be opened for writing, [create_entry]
    raises [OSError] and returns no identifier, the disk is as it was, and
    yet the entry is in the in-memory store: [get_entry] of the identifier
    that was drawn finds it. *)
Theorem create_entry_save_fails
  (w : world) (d : dict) (c : pyval) (u4 u1 : N) :
  data (clipboard w) = PDict d ->
  can_write (disk w) (storage_file (clipboard w)) = false ->
  let w' := snd (create_entry c u4 u1 w) in
  fst (create_entry c u4 u1 w) = Raise OSError /\
  disk w' = disk w /\
  fst (get_entry (take 8 (uuid_str u4)) w') = Ok (new_entry c u1).
Proof.
  intros Hd Hw w'. subst w'.
  rewrite (create_entry_unwritable w d c u4 u1 Hd Hw). cbn [fst snd disk].
  split; [reflexivity|]. split; [reflexivity|].
  erewrite get_entry_dict by reflexivity. cbn [fst].
  now rewrite dict_get_set_same.
Qed.

Lemma create_entry_save_fails_witness :
  fst (create_entry (PStr "lost") draw_a 1 read_only) = Raise OSError /\
  disk (snd (create_entry (PStr "lost") draw_a 1 read_only)) = disk read_only /\
  fst (get_entry (take 8 (uuid_str draw_a))
         (snd (create_entry (PStr "lost") draw_a 1 read_only)))
    = Ok (new_entry (PStr "lost") 1).
Proof.
  apply (create_entry_save_fails read_only [] (PStr "lost") draw_a 1);
    reflexivity.
Defined.

(** X4: seen from a client, the same failure: [POST /create] with a content
    is answered 500, and [GET /get/<id>] of the identifier that was drawn is
    then answered 200 with the entry. *)
Theorem create_view_save_fails
  (w : world) (d body : dict) (c : pyval) (u4 u1 : N) :
  data (clipboard w) = PDict d ->
  can_write (disk w) (storage_file (clipboard w)) = false ->
  dict_get "content" body = Some c ->
  let w' := snd (serve (create_clipboard_entry (PDict body) u4 u1) w) in
  fst (serve (create_clipboard_entry (PDict body) u4 u1) w)
    = mkResponse 500 ErrorPage /\
  fst (serve (get_clipboard_entry (take 8 (uuid_str u4))) w')
    = mkResponse 200 (Json (new_entry c u1)).
Proof.
  intros Hd Hw Hc w'. subst w'.
  assert (Ht : truthy (PDict body) = true).
  { destruct body; [discriminate Hc | reflexivity]. }
  assert (Hs : serve (create_clipboard_entry (PDict body) u4 u1) w =
               (mkResponse 500 ErrorPage, snd (create_entry c u4 u1 w))).
  { unfold serve, create_clipboard_entry, bindM, lift, ret.
    rewrite Ht. simpl. unfold dict_mem. rewrite Hc. simpl.
    now rewrite (create_entry_unwritable w d c u4 u1 Hd Hw). }
  rewrite Hs. cbn [fst snd]. split; [reflexivity|].
  rewrite (create_entry_unwritable w d c u4 u1 Hd Hw). cbn [snd].
  unfold serve, get_clipboard_entry, bindM.
  erewrite get_entry_dict by reflexivity.
  now rewrite dict_get_set_same.
Qed.

Lemma create_view_save_fails_witness :
  fst (serve (create_clipboard_entry (PDict [("content", PStr "lost")]) draw_a 1)
         read_only)
    = mkResponse 500 ErrorPage /\
  fst (serve (get_clipboard_entry (take 8 (uuid_str draw_a)))
         (snd (serve (create_clipboard_entry (PDict [("content", PStr "lost")])
                        draw_a 1) read_only)))
    = mkResponse 200 (Json (new_entry (PStr "lost") 1)).
Proof.
  apply (create_view_save_fails read_only [] [("content", PStr "lost")]
           (PStr "lost") draw_a 1); reflexivity.
Defined.

(** ** What the reader builds is a Python value *)

Lemma fold_dict_set_ok (l acc : list (string * pyval)) :
  all_values dict_ok l ->
  dict_ok (PDict acc) ->
  dict_ok (PDict (fold_left (fun d kv => dict_set (fst kv) (snd kv) d) l acc)).
Proof.
  revert acc. induction l as [|[k v] l IH]; intros acc Hl Hacc; simpl.
  - exact Hacc.
  - destruct Hl as [Hv Hl]. apply IH; [exact Hl|].
    now apply dict_ok_set.
Qed.

Lemma dict_of_pairs_ok (l : list (string * pyval)) :
  all_values dict_ok l -> dict_ok (PDict (dict_of_pairs l)).
Proof.
  intros Hl. apply fold_dict_set_ok; [exact Hl|].
  split; [constructor | exact I].
Qed.

Lemma parse_ok (f : nat) :
  (forall s v r, parse_value f s = Some (v, r) -> dict_ok v) /\
  (forall s l r, parse_items f s = Some (l, r) -> all_items dict_ok l) /\
  (forall s l r, parse_members f s = Some (l, r) -> all_values dict_ok l).
Proof.
  induction f as [|f (IHv & IHi & IHm)].
  - repeat split; intros; discriminate.
  - split; [|split].
    + intros s v r H. cbn [parse_value] in H.
      destruct s as [|c s]; [discriminate|].
      destruct (Ascii.eqb c quote).
      { destruct (scan_string s) as [[str r']|]; [|discriminate].
        injection H as <- _. exact I. }
      destruct (Ascii.eqb c "{").
      { destruct (skip_ws s) as [|c1 r1]; [discriminate|].
        destruct (Ascii.eqb c1 "}"); [injection H as <- _; split; [constructor | exact I]|].
        destruct (Ascii.eqb c1 quote); [|discriminate].
        destruct (parse_members f r1) as [[l r2]|] eqn:E; [|discriminate].
        injection H as <- _. apply dict_of_pairs_ok. exact (IHm _ _ _ E). }
      destruct (Ascii.eqb c "[").
      { destruct (skip_ws s) as [|c1 r1]; [discriminate|].
        destruct (Ascii.eqb c1 "]"); [injection H as <- _; exact I|].
        destruct (parse_items f (String c1 r1)) as [[l r2]|] eqn:E; [|discriminate].
        injection H as <- _. exact (IHi _ _ _ E). }
      destruct (Ascii.eqb c "n").
      { destruct (strip "ull" s); [|discriminate]. injection H as <- _. exact I. }
      destruct (Ascii.eqb c "t").
      { destruct (strip "rue" s); [|discriminate]. injection H as <- _. exact I. }
      destruct (Ascii.eqb c "f").
      { destruct (strip "alse" s); [|discriminate]. injection H as <- _. exact I. }
      destruct (parse_int (String c s)) as [[z r']|]; [|discriminate].
      injection H as <- _. exact I.
    + intros s l r H. rewrite parse_items_eq in H.
      destruct (parse_value f s) as [[v r0]|] eqn:Ev; [|discriminate].
      destruct (skip_ws r0) as [|c r1]; [discriminate|].
      destruct (Ascii.eqb c "]").
      { injection H as <- _. split; [exact (IHv _ _ _ Ev) | exact I]. }
      destruct (Ascii.eqb c ","); [|discriminate].
      destruct (parse_items f (skip_ws r1)) as [[l' r2]|] eqn:Ei; [|discriminate].
      injection H as <- _. split; [exact (IHv _ _ _ Ev) | exact (IHi _ _ _ Ei)].
    + intros s l r H. rewrite parse_members_eq in H.
      destruct (scan_string s) as [[k r0]|]; [|discriminate].
      destruct (skip_ws r0) as [|c r1]; [discriminate|].
      destruct (Ascii.eqb c ":"); [|discriminate].
      destruct (parse_value f (skip_ws r1)) as [[v r2]|] eqn:Ev; [|discriminate].
      destruct (skip_ws r2) as [|c2 r3]; [discriminate|].
      destruct (Ascii.eqb c2 "}").
      { injection H as <- _. split; [exact (IHv _ _ _ Ev) | exact I]. }
      destruct (Ascii.eqb c2 ","); [|discriminate].
      destruct (skip_ws r3) as [|c3 r4]; [discriminate|].
      destruct (Ascii.eqb c3 quote); [|discriminate].
      destruct (parse_members f r4) as [[l' r5]|] eqn:Em; [|discriminate].
      injection H as <- _. split; [exact (IHv _ _ _ Ev) | exact (IHm _ _ _ Em)].
Qed.

Lemma json_loads_ok (s : string) (v : pyval) :
  json_loads s = Some v -> dict_ok v.
Proof.
  unfold json_loads. intros H.
  destruct (parse_value (S (String.length s)) (skip_ws s)) as [[v' r]|] eqn:E;
    [|discriminate].
  destruct (skip_ws r); [|discriminate]. injection H as <-.
  exact (proj1 (parse_ok _) _ _ _ E).
Qed.

Lemma load_data_ok (path : string) (d : fs) (v : pyval) :
  load_data path d = Ok v -> dict_ok v.
Proof.
  unfold load_data, json_load.
  destruct (at_path d path) as [[b r]|].
  - simpl. destruct r.
    + destruct b as [s|]; [|discriminate].
      destruct (json_loads s) eqn:E.
      * intros [= <-]. exact (json_loads_ok _ _ E).
      * intros [= <-]. split; [constructor | exact I].
    + intros [= <-]. split; [constructor | exact I].
  - intros [= <-]. split; [constructor | exact I].
Qed.

(** ** Restarting *)

Lemma init_fields (path : string) (d : fs) (w : world) :
  init path d = Ok w ->
  storage_file (clipboard w) = path /\ disk w = d /\
  load_data path d = Ok (data (clipboard w)).
Proof.
  unfold init, bind. destruct (load_data path d) as [v|e]; [|discriminate].
  intros [= <-]. auto.
Qed.

Lemma init_of_load (w : world) :
  load_data (storage_file (clipboard w)) (disk w) = Ok (data (clipboard w)) ->
  init (storage_file (clipboard w)) (disk w) = Ok w.
Proof.
  intros H. unfold init. rewrite H. now destruct w as [[p v] d].
Qed.

Lemma exec_storage_file (w : world) (o : op) :
  storage_file (clipboard (exec w o)) = storage_file (clipboard w).
Proof.
  destruct o as [c u4 u1 | i]; simpl.
  - unfold create_entry, bindM, get_data, lift, set_data, save_data, ret.
    destruct (py_setitem (data (clipboard w)) (take 8 (uuid_str u4))
                (new_entry c u1)); [|reflexivity].
    simpl. destruct (can_write (disk w) (storage_file (clipboard w)));
      reflexivity.
  - unfold get_entry, bindM, get_data, lift, ret.
    destruct (py_get (data (clipboard w)) i); reflexivity.
Qed.

Lemma loadable_write (w : world) (v : pyval) :
  loadable w ->
  loadable (mkWorld (mkClipboard (storage_file (clipboard w)) v)
              (write_text (disk w) (storage_file (clipboard w)) (json_dumps v))).
Proof.
  unfold loadable, write_text. simpl. rewrite String.eqb_refl. simpl.
  destruct (at_path (disk w) (storage_file (clipboard w))); auto.
Qed.

(** One step of a run keeps the disk in step with the store. *)
Lemma exec_synced (w : world) (d : dict) (o : op) :
  data (clipboard w) = PDict d ->
  dict_ok (PDict d) ->
  writable w ->
  loadable w ->
  contents_ok [o] ->
  load_data (storage_file (clipboard w)) (disk w) = Ok (PDict d) ->
  exists d',
    data (clipboard (exec w o)) = PDict d' /\ dict_ok (PDict d') /\
    writable (exec w o) /\ loadable (exec w o) /\
    load_data (storage_file (clipboard w)) (disk (exec w o)) = Ok (PDict d').
Proof.
  intros Hd Hok Hw Hl Hc Hs. destruct o as [c u4 u1 | i]; simpl.
  - rewrite (create_entry_writable w d c u4 u1 Hd Hw). cbn [snd].
    assert (Hok' : dict_ok (PDict (dict_set (take 8 (uuid_str u4))
                                     (new_entry c u1) d))).
    { apply dict_ok_set; [apply dict_ok_new_entry, Hc | exact Hok]. }
    eexists. split; [reflexivity|]. split; [exact Hok'|].
    split; [exact Hw|]. split; [apply loadable_write, Hl|].
    cbn [disk]. apply load_after_write; [exact Hl|].
    now apply json_loads_dumps.
  - rewrite (get_entry_dict w d i Hd). cbn [snd].
    exists d. auto.
Qed.

Lemma run_synced (ops : list op) (w : world) (d : dict) :
  data (clipboard w) = PDict d ->
  dict_ok (PDict d) ->
  writable w ->
  loadable w ->
  contents_ok ops ->
  load_data (storage_file (clipboard w)) (disk w) = Ok (PDict d) ->
  load_data (storage_file (clipboard (run ops w))) (disk (run ops w))
    = Ok (data (clipboard (run ops w))).
Proof.
  revert w d. induction ops as [|o ops IH]; intros w d Hd Hok Hw Hl Hc Hs.
  - simpl. now rewrite Hd.
  - assert (Hc1 : contents_ok [o] /\ contents_ok ops).
    { destruct o; simpl in *; tauto. }
    destruct Hc1 as [Ho Hops].
    destruct (exec_synced w d o Hd Hok Hw Hl Ho Hs)
      as (d' & Hd' & Hok' & Hw' & Hl' & Hs').
    simpl. apply (IH (exec w o) d'); try assumption.
    now rewrite exec_storage_file.
Qed.





(** ** A store that is no dict *)

(** X8: when the store's data is not a dict (a storage file that holds a
    JSON array, string, number, [true], [false] or [null] gives such a
    store), [create_entry] raises [TypeError] and [get_entry] raises
    [AttributeError]; neither changes the store or the disk. *)
Theorem store_not_dict_raises
  (w : world) (c : pyval) (u4 u1 : N) (i : string) :
  is_dict (data (clipboard w)) = false ->
  create_entry c u4 u1 w = (Raise TypeError, w) /\
  get_entry i w = (Raise AttributeError, w).
Proof.
  intros H.
  unfold create_entry, get_entry, bindM, get_data, lift.
  destruct (data (clipboard w)); try discriminate; split; reflexivity.
Qed.

Lemma store_not_dict_raises_witness :
  create_entry (PStr "x") draw_a 1
    (mkWorld (mkClipboard "clipboard_data.json" (PList [])) array_disk)
    = (Raise TypeError,
       mkWorld (mkClipboard "clipboard_data.json" (PList [])) array_disk) /\
  get_entry "deadbeef"
    (mkWorld (mkClipboard "clipboard_data.json" (PList [])) array_disk)
    = (Raise AttributeError,
       mkWorld (mkClipboard "clipboard_data.json" (PList [])) array_disk).
Proof.
  apply (store_not_dict_raises
           (mkWorld (mkClipboard "clipboard_data.json" (PList [])) array_disk)
           (PStr "x") draw_a 1 "deadbeef").
  reflexivity.
Defined.

(** X9: a readable storage file whose text is JSON but no object lets the
    process start, with that value as the store; from then on every
    [GET /get/<id>] and every [POST /create] that carries a content is
    answered 500, and nothing is stored. *)
Theorem non_mapping_file_breaks_views
  (path : string) (d0 : fs) (txt : string) (v : pyval) :
  at_path d0 path = Some (mkFile (Text txt) true) ->
  json_loads txt = Some v ->
  is_dict v = false ->
  exists w0,
    init path d0 = Ok w0 /\
    data (clipboard w0) = v /\
    (forall i, serve (get_clipboard_entry i) w0 = (mkResponse 500 ErrorPage, w0)) /\
    (forall body c u4 u1,
        dict_get "content" body = Some c ->
        serve (create_clipboard_entry (PDict body) u4 u1) w0
          = (mkResponse 500 ErrorPage, w0)).
Proof.
  intros Hf Hj Hv.
  exists (mkWorld (mkClipboard path v) d0).
  split; [unfold init; now rewrite (load_data_parsed path d0 txt v Hf Hj)|].
  split; [reflexivity|]. split.
  - intros i. unfold serve, get_clipboard_entry, bindM.
    destruct (store_not_dict_raises (mkWorld (mkClipboard path v) d0)
                PNone 0 0 i Hv) as [_ Hg].
    now rewrite Hg.
  - intros body c u4 u1 Hc.
    assert (Ht : truthy (PDict body) = true).
    { destruct body; [discriminate Hc | reflexivity]. }
    unfold serve, create_clipboard_entry, bindM, lift, ret.
    rewrite Ht. simpl. unfold dict_mem. rewrite Hc. simpl.
    destruct (store_not_dict_raises (mkWorld (mkClipboard path v) d0)
                c u4 u1 "" Hv) as [Hcr _].
    now rewrite Hcr.
Qed.

Lemma non_mapping_file_breaks_views_witness :
  exists w0,
    init "clipboard_data.json" array_disk = Ok w0 /\
    data (clipboard w0) = PList [] /\
    (forall i, serve (get_clipboard_entry i) w0 = (mkResponse 500 ErrorPage, w0)) /\
    (forall body c u4 u1,
        dict_get "content" body = Some c ->
        serve (create_clipboard_entry (PDict body) u4 u1) w0
          = (mkResponse 500 ErrorPage, w0)).
Proof.
  apply (non_mapping_file_breaks_views "clipboard_data.json" array_disk
           "[]" (PList [])); reflexivity.
Defined.

(** * Further properties of the views *)

Lemma eq_str_true (s : string) (v : pyval) :
  eq_str s v = true <-> v = PStr s.
Proof.
  destruct v; simpl; try (split; [discriminate | discriminate]).
  rewrite String.eqb_eq. split; [now intros -> | now intros [= ->]].
Qed.

Lemma existsb_eq_str (s : string) (l : list pyval) :
  existsb (eq_str s) l = true <-> In (PStr s) l.
Proof.
  rewrite existsb_exists. split.
  - intros (x & Hin & Hx). apply eq_str_true in Hx. now subst.
  - intros Hin. exists (PStr s). split; [exact Hin | now apply eq_str_true].
Qed.

(** X10: [POST /create] is answered 400 with the error payload, and the
    store and the disk are left as they were, when the body is [null],
    [false], 0, a string without the text [content], an array without the
    item ["content"], or an object without the key ['content']; the empty
    string, array and object are among them. *)
Theorem create_view_400 (w : world) (req : pyval) (u4 u1 : N) :
  req = PNone \/ req = PBool false \/ req = PInt 0 \/
  (exists s, req = PStr s /\ is_substring "content" s = false) \/
  (exists l, req = PList l /\ ~ In (PStr "content") l) \/
  (exists d, req = PDict d /\ dict_get "content" d = None) ->
  serve (create_clipboard_entry req u4 u1) w =
    (mkResponse 400 (Json (PDict [("error", PStr "Content is required")])), w).
Proof.
  intros [-> | [-> | [-> | [(s & -> & Hs) | [(l & -> & Hl) | (d & -> & Hd)]]]]];
    try reflexivity.
  - unfold serve, create_clipboard_entry, bindM, lift, ret. simpl.
    destruct (negb (negb (String.eqb s ""))); [reflexivity|].
    now rewrite Hs.
  - unfold serve, create_clipboard_entry, bindM, lift, ret. simpl.
    assert (He : existsb (eq_str "content") l = false).
    { destruct (existsb (eq_str "content") l) eqn:E; [|reflexivity].
      apply existsb_eq_str in E. contradiction. }
    destruct l; [reflexivity|]. simpl in *. now rewrite He.
  - apply create_view_rejects. right. now exists d.
Qed.

Lemma create_view_400_witness :
  serve (create_clipboard_entry (PList [PStr "x"; PInt 1]) draw_a 1) fresh =
    (mkResponse 400 (Json (PDict [("error", PStr "Content is required")])),
     fresh).
Proof.
  apply (create_view_400 fresh (PList [PStr "x"; PInt 1]) draw_a 1).
  right. right. right. right. left.
  exists [PStr "x"; PInt 1]. split; [reflexivity|].
  simpl. intros [H | [H | H]]; [discriminate H | discriminate H | exact H].
Defined.

(** X11: [POST /create] is answered 500, and the store and the disk are
    left as they were, when the body is [true], a number other than 0, a
    string that contains the text [content], or an array that has the item
    ["content"]. *)
Theorem create_view_500 (w : world) (req : pyval) (u4 u1 : N) :
  req = PBool true \/
  (exists z, req = PInt z /\ z <> 0%Z) \/
  (exists s, req = PStr s /\ is_substring "content" s = true) \/
  (exists l, req = PList l /\ In (PStr "content") l) ->
  serve (create_clipboard_entry req u4 u1) w = (mkResponse 500 ErrorPage, w).
Proof.
  intros [-> | [(z & -> & Hz) | [(s & -> & Hs) | (l & -> & Hl)]]].
  - reflexivity.
  - unfold serve, create_clipboard_entry, bindM, lift, ret. simpl.
    apply Z.eqb_neq in Hz. now rewrite Hz.
  - assert (Ht : truthy (PStr s) = true).
    { destruct s; [discriminate Hs | reflexivity]. }
    unfold serve, create_clipboard_entry, bindM, lift, ret.
    rewrite Ht. cbn [negb py_in]. now rewrite Hs.
  - unfold serve, create_clipboard_entry, bindM, lift, ret. simpl.
    apply existsb_eq_str in Hl.
    destruct l; [discriminate Hl|]. simpl in *. now rewrite Hl.
Qed.

Lemma create_view_500_witness :
  serve (create_clipboard_entry (PInt (-3)) draw_a 1) fresh
    = (mkResponse 500 ErrorPage, fresh).
Proof.
  apply (create_view_500 fresh (PInt (-3)) draw_a 1).
  right. left. exists (-3)%Z. split; [reflexivity | discriminate].
Defined.

(** X12: over HTTP, what [POST /create] stored is what [GET /get/<id>]
    serves: for an object body with the key ['content'], whatever its value
    (the empty string, 0, [false] and [null] included), the identifier of
    the 200 answer makes the get view answer 200 with that content and the
    timestamp, and the get view changes nothing. *)
Theorem create_then_get_view
  (w : world) (d body : dict) (c : pyval) (u4 u1 : N) :
  data (clipboard w) = PDict d ->
  writable w ->
  dict_get "content" body = Some c ->
  let i := take 8 (uuid_str u4) in
  let w' := snd (serve (create_clipboard_entry (PDict body) u4 u1) w) in
  fst (serve (create_clipboard_entry (PDict body) u4 u1) w)
    = mkResponse 200 (Json (PDict [("id", PStr i)])) /\
  serve (get_clipboard_entry i) w'
    = (mkResponse 200
         (Json (PDict [("content", c); ("timestamp", PStr (uuid_str u1))])),
       w').
Proof.
  intros Hd Hw Hc i w'. subst i w'.
  rewrite (create_view_accepts w d body c u4 u1 Hd Hw Hc).
  cbn [fst snd]. split; [reflexivity|].
  rewrite (create_entry_writable w d c u4 u1 Hd Hw). cbn [snd].
  unfold serve, get_clipboard_entry, bindM.
  erewrite get_entry_dict by reflexivity.
  now rewrite dict_get_set_same.
Qed.

Lemma create_then_get_view_witness :
  fst (serve (create_clipboard_entry (PDict [("content", PStr "")]) draw_a 1)
         fresh)
    = mkResponse 200 (Json (PDict [("id", PStr (take 8 (uuid_str draw_a)))])) /\
  serve (get_clipboard_entry (take 8 (uuid_str draw_a)))
    (snd (serve (create_clipboard_entry (PDict [("content", PStr "")]) draw_a 1)
            fresh))
    = (mkResponse 200
         (Json (PDict [("content", PStr ""); ("timestamp", PStr (uuid_str 1))])),
       snd (serve (create_clipboard_entry (PDict [("content", PStr "")]) draw_a 1)
              fresh)).
Proof.
  apply (create_then_get_view fresh [] [("content", PStr "")] (PStr "")
           draw_a 1); reflexivity.
Defined.

(** X13: [GET /get/<id>] tests the stored value, not the key: an
    identifier that is a key of the store with a value Python counts as
    false (an empty object, [null], 0, [false], an empty string or array,
    which a hand-edited storage file can hold) is answered 404 with
    [Entry not found], like an identifier the store does not hold. *)
Theorem get_view_falsy_value_404 (w : world) (d : dict) (i : string) (e : pyval) :
  data (clipboard w) = PDict d ->
  dict_get i d = Some e ->
  truthy e = false ->
  serve (get_clipboard_entry i) w =
    (mkResponse 404 (Json (PDict [("error", PStr "Entry not found")])), w).
Proof.
  intros Hd He Ht. unfold serve, get_clipboard_entry, bindM.
  rewrite (get_entry_dict w d i Hd), He. now rewrite Ht.
Qed.

Lemma get_view_falsy_value_404_witness :
  serve (get_clipboard_entry "abc") hand_edited =
    (mkResponse 404 (Json (PDict [("error", PStr "Entry not found")])),
     hand_edited).
Proof.
  apply (get_view_falsy_value_404 hand_edited [("abc", PDict [])] "abc"
           (PDict [])); reflexivity.
Defined.

Example hand_edited_loaded :
  init "clipboard_data.json" (disk hand_edited) = Ok hand_edited.
Proof. reflexivity. Qed.

(** ** Identifiers *)

Lemma hex_digit_is_hex (n : N) : is_hex_lower (hex_digit n) = true.
Proof.
  destruct n as [|p]; [reflexivity|].
  do 5 (try (destruct p as [p|p|]; try reflexivity)).
Qed.

Lemma hex_field_is_hex (n : N) (hi cnt : nat) :
  all_chars is_hex_lower (hex_field n hi cnt) = true.
Proof.
  revert hi. induction cnt as [|cnt IH]; intros hi; simpl.
  - reflexivity.
  - unfold nibble. now rewrite hex_digit_is_hex, IH.
Qed.

(** X14: every identifier [create_entry] returns is made of 8 characters
    that are decimal digits or letters from a to f. *)
Theorem entry_id_hex (w : world) (d : dict) (c : pyval) (u4 u1 : N) :
  data (clipboard w) = PDict d ->
  writable w ->
  exists i,
    fst (create_entry c u4 u1 w) = Ok i /\
    String.length i = 8 /\
    all_chars is_hex_lower i = true.
Proof.
  intros Hd Hw. exists (take 8 (uuid_str u4)).
  rewrite (create_entry_writable w d c u4 u1 Hd Hw).
  split; [reflexivity|]. split; [reflexivity|].
  rewrite take8_uuid_str. apply hex_field_is_hex.
Qed.

Lemma entry_id_hex_witness :
  exists i,
    fst (create_entry (PStr "x") draw_b 2 fresh) = Ok i /\
    String.length i = 8 /\
    all_chars is_hex_lower i = true.
Proof.
  apply (entry_id_hex fresh [] (PStr "x") draw_b 2); reflexivity.
Defined.

(** * The page against the views *)

Lemma all_chars_impl (p q : ascii -> bool) (s : string) :
  (forall c, p c = true -> q c = true) ->
  all_chars p s = true -> all_chars q s = true.
Proof.
  intros Hpq. induction s as [|c s IH]; simpl; [reflexivity|].
  intros H. apply andb_true_iff in H. destruct H as [Hc Hs].
  now rewrite (Hpq c Hc), IH.
Qed.

Lemma hex_is_alnum (c : ascii) : is_hex_lower c = true -> is_alnum c = true.
Proof.
  unfold is_hex_lower, is_alnum. cbv zeta. intros H.
  apply orb_true_iff in H. destruct H as [H | H].
  - now rewrite H.
  - apply andb_true_iff in H. destruct H as [H1 H2].
    apply N.leb_le in H1, H2.
    assert (H3 : (97 <=? N_of_ascii c)%N = true) by (apply N.leb_le; lia).
    assert (H4 : (N_of_ascii c <=? 122)%N = true) by (apply N.leb_le; lia).
    rewrite H3, H4. now rewrite orb_true_r.
Qed.

Lemma entry_id_plain (u4 : N) : plain_segment (take 8 (uuid_str u4)) = true.
Proof.
  unfold plain_segment. apply andb_true_iff. split.
  - reflexivity.
  - apply (all_chars_impl is_hex_lower); [exact hex_is_alnum|].
    rewrite take8_uuid_str. apply hex_field_is_hex.
Qed.

(** X15: through the page, what is typed is what is shown: with a
    non-empty text [c] in the textarea, [createEntry()] shows the
    identifier of the new entry, and [retrieveEntry()] with that identifier
    in the input field then sets the result to the fixed heading followed by
    [c] itself, character for character. *)
Theorem page_round_trip (w : world) (d : dict) (c : string) (u4 u1 : N) :
  data (clipboard w) = PDict d ->
  writable w ->
  c <> "" ->
  let i := take 8 (uuid_str u4) in
  let w' := snd (createEntry c u4 u1 w) in
  fst (createEntry c u4 u1 w) =
    Some [SetInnerHTML "create-result"
            ("Entry created! ID: <strong>" ++ i ++ "</strong>")] /\
  retrieveEntry i w' =
    (Some [SetInnerHTML "result"
             ("<strong>Retrieved Content:</strong><br>" ++ c)], w').
Proof.
  intros Hd Hw Hc i w'. subst i w'.
  apply String.eqb_neq in Hc.
  unfold createEntry. rewrite Hc.
  rewrite (create_view_accepts w d [("content", PStr c)] (PStr c) u4 u1 Hd Hw
             eq_refl).
  cbn [fst snd payload_of js_prop dict_get String.eqb Ascii.eqb Bool.eqb
       js_string].
  split; [reflexivity|].
  rewrite (create_entry_writable w d (PStr c) u4 u1 Hd Hw). cbn [snd].
  unfold retrieveEntry.
  assert (Hne : String.eqb (take 8 (uuid_str u4)) "" = false) by reflexivity.
  rewrite Hne, entry_id_plain. cbn [negb].
  unfold serve, get_clipboard_entry, bindM.
  erewrite get_entry_dict by reflexivity.
  rewrite dict_get_set_same.
  cbn. now rewrite Hc.
Qed.

Lemma page_round_trip_witness :
  fst (createEntry "<b>hi</b>" draw_a 1 fresh) =
    Some [SetInnerHTML "create-result"
            ("Entry created! ID: <strong>" ++ take 8 (uuid_str draw_a)
             ++ "</strong>")] /\
  retrieveEntry (take 8 (uuid_str draw_a))
    (snd (createEntry "<b>hi</b>" draw_a 1 fresh)) =
    (Some [SetInnerHTML "result"
             ("<strong>Retrieved Content:</strong><br>" ++ "<b>hi</b>")],
     snd (createEntry "<b>hi</b>" draw_a 1 fresh)).
Proof.
  apply (page_round_trip fresh [] "<b>hi</b>" draw_a 1).
  - reflexivity.
  - reflexivity.
  - discriminate.
Defined.

(** X16: the page does not tell an entry with nothing to show from no
    entry: for an identifier the store does not hold, and for an entry whose
    content is the empty string, 0, [false] or [null], [retrieveEntry()]
    sets the result to the same text, [Entry not found or invalid ID], and
    changes nothing. *)
Theorem page_hides_falsy_content
  (w : world) (d : dict) (i : string) :
  data (clipboard w) = PDict d ->
  plain_segment i = true ->
  dict_get i d = None \/
  (exists c ts,
      dict_get i d = Some (PDict [("content", c); ("timestamp", ts)]) /\
      js_truthy (JValue c) = false) ->
  retrieveEntry i w =
    (Some [SetInnerHTML "result" "Entry not found or invalid ID"], w).
Proof.
  intros Hd Hp Hcase.
  assert (Hne : String.eqb i "" = false).
  { destruct i; [discriminate Hp | reflexivity]. }
  unfold retrieveEntry. rewrite Hne, Hp. cbn [negb].
  unfold serve, get_clipboard_entry, bindM.
  rewrite (get_entry_dict w d i Hd).
  destruct Hcase as [Hn | (c & ts & He & Hf)].
  - rewrite Hn. reflexivity.
  - rewrite He. cbn -[js_truthy]. now rewrite Hf.
Qed.

Lemma page_hides_falsy_content_witness :
  retrieveEntry (take 8 (uuid_str draw_a)) empty_noted =
    (Some [SetInnerHTML "result" "Entry not found or invalid ID"], empty_noted).
Proof.
  apply (page_hides_falsy_content empty_noted
           [(take 8 (uuid_str draw_a), new_entry (PStr "") 1)]
           (take 8 (uuid_str draw_a))).
  - reflexivity.
  - reflexivity.
  - right. exists (PStr ""), (PStr (uuid_str 1)). split; reflexivity.
Defined.

Example page_unknown_id :
  fst (retrieveEntry "doesnotexist" empty_noted)
    = Some [SetInnerHTML "result" "Entry not found or invalid ID"].
Proof. reflexivity. Qed.

Example page_empty_textarea :
  createEntry "" draw_a 1 fresh = (Some [Alert "Please enter some content"], fresh).
Proof. reflexivity. Qed.

(** * Runs, in full *)

(** X17: the last writer wins.  After a run on writable storage, an
    identifier maps to the entry of the last creation of the run that drew
    it, and to what the store held for it at the start when no creation
    drew it. *)
Theorem last_write_wins (ops : list op) (w : world) (d : dict) (i : string) :
  data (clipboard w) = PDict d ->
  writable w ->
  exists d',
    data (clipboard (run ops w)) = PDict d' /\
    dict_get i d' =
      match last_entry i ops with
      | Some e => Some e
      | None => dict_get i d
      end.
Proof.
  revert w d. induction ops as [|o ops IH]; intros w d Hd Hw.
  - exists d. auto.
  - destruct (exec_keeps_dict w d o Hd Hw) as (d1 & Hd1 & Hw1 & Ho).
    destruct (IH _ d1 Hd1 Hw1) as (d' & Hd' & Hg).
    exists d'. split; [exact Hd'|]. rewrite Hg. cbn [last_entry].
    destruct (last_entry i ops); [reflexivity|].
    destruct o as [c u4 u1 | j]; subst d1; [|reflexivity].
    destruct (String.eqb i (take 8 (uuid_str u4))) eqn:E.
    + apply String.eqb_eq in E. subst i. apply dict_get_set_same.
    + apply String.eqb_neq in E. now apply dict_get_set_other.
Qed.

Lemma last_write_wins_witness :
  exists d',
    data (clipboard (run [Create (PStr "first") draw_a 1; Get "deadbeef";
                          Create (PStr "second") draw_b 2] fresh)) = PDict d' /\
    dict_get "deadbeef" d' =
      match last_entry "deadbeef"
              [Create (PStr "first") draw_a 1; Get "deadbeef";
               Create (PStr "second") draw_b 2] with
      | Some e => Some e
      | None => dict_get "deadbeef" []
      end.
Proof.
  apply (last_write_wins
           [Create (PStr "first") draw_a 1; Get "deadbeef";
            Create (PStr "second") draw_b 2] fresh [] "deadbeef");
    reflexivity.
Defined.

Example last_entry_example :
  last_entry "deadbeef"
    [Create (PStr "first") draw_a 1; Get "deadbeef";
     Create (PStr "second") draw_b 2]
  = Some (new_entry (PStr "second") 2).
Proof. reflexivity. Qed.

Lemma get_entry_world (w : world) (i : string) : snd (get_entry i w) = w.
Proof.
  unfold get_entry, bindM, get_data, lift, ret.
  destruct (py_get (data (clipboard w)) i); reflexivity.
Qed.

Lemma run_lookups_only (ops : list op) (w : world) :
  lookups_only ops = true -> run ops w = w.
Proof.
  revert w. induction ops as [|o ops IH]; intros w H; [reflexivity|].
  destruct o as [c u4 u1 | i]; [discriminate H|].
  simpl. rewrite get_entry_world. now apply IH.
Qed.

(** X18: the storage file comes into being with the first creation, not
    before: on a disk without the file the store starts empty, lookups
    leave the file absent, and the first creation writes it with the one
    entry. *)
Theorem file_made_by_first_creation
  (path : string) (d0 : fs) (ops : list op) (c : pyval) (u4 u1 : N) :
  at_path d0 path = None ->
  can_write d0 path = true ->
  lookups_only ops = true ->
  exists w0,
    init path d0 = Ok w0 /\
    data (clipboard w0) = PDict [] /\
    at_path (disk (run ops w0)) path = None /\
    at_path (disk (snd (create_entry c u4 u1 (run ops w0)))) path =
      Some (mkFile
              (Text (json_dumps
                       (PDict [(take 8 (uuid_str u4), new_entry c u1)])))
              true).
Proof.
  intros Hf Hw Hops.
  exists (mkWorld (mkClipboard path (PDict [])) d0).
  split; [unfold init; now rewrite (load_data_missing path d0 Hf)|].
  split; [reflexivity|].
  rewrite (run_lookups_only ops _ Hops).
  split; [exact Hf|].
  rewrite (create_entry_writable (mkWorld (mkClipboard path (PDict [])) d0)
             [] c u4 u1 eq_refl Hw).
  cbn [snd disk clipboard storage_file]. unfold write_text.
  cbn [at_path]. rewrite String.eqb_refl, Hf. reflexivity.
Qed.

Lemma file_made_by_first_creation_witness :
  exists w0,
    init "clipboard_data.json" no_files = Ok w0 /\
    data (clipboard w0) = PDict [] /\
    at_path (disk (run [Get "a"; Get "b"] w0)) "clipboard_data.json" = None /\
    at_path (disk (snd (create_entry (PStr "x") draw_a 1
                          (run [Get "a"; Get "b"] w0))))
      "clipboard_data.json" =
      Some (mkFile
              (Text (json_dumps
                       (PDict [(take 8 (uuid_str draw_a),
                                new_entry (PStr "x") 1)])))
              true).
Proof.
  apply (file_made_by_first_creation "clipboard_data.json" no_files
           [Get "a"; Get "b"] (PStr "x") draw_a 1); reflexivity.
Defined.
